(** * Att_app: the attendance views over an explicit store

    A shallow embedding of [attendance/models.py] and [attendance/views.py].
    The two tables are finite maps from primary key to row, every view is a
    function in a small monad that threads the store, records the SQL writes
    it issues and propagates Python exceptions. What the views take from
    outside the repository (pandas, [datetime.strptime], [int] and [repr]
    on text, float arithmetic, the database's collation and column limits)
    is kept behind type classes. *)

From Stdlib Require Import Ascii SpecFloat.
From stdpp Require Import base option list gmap strings sorting numbers.

Local Open Scope Z_scope.

(** ** Python values and exceptions *)

Module Py.

(** The exceptions the views can meet. *)
Inductive exn : Type :=
| DoesNotExist
| MultipleObjectsReturned
| Http404
| ValueError (msg : string)
| UnboundLocalError (name : string)
| ZeroDivisionError
| KeyError (key : string)
| IndexError
| DataError
| LibraryError (msg : string).

Inductive outcome (A : Type) : Type :=
| Return (a : A)
| Raise (e : exn).
Global Arguments Return {A} a.
Global Arguments Raise {A} e.

(** [str.isspace] on the ASCII range: TAB..CR, FS..US and the blank. *)
Definition isspace (a : ascii) : bool :=
  let n := N_of_ascii a in
  ((9 <=? n) && (n <=? 13) || (28 <=? n) && (n <=? 32))%N.

Fixpoint lstrip (s : string) : string :=
  match s with
  | EmptyString => EmptyString
  | String a r => if isspace a then lstrip r else s
  end.

Fixpoint rstrip (s : string) : string :=
  match s with
  | EmptyString => EmptyString
  | String a r =>
      match rstrip r with
      | EmptyString => if isspace a then EmptyString else String a EmptyString
      | r' => String a r'
      end
  end.

(** [s.strip()] *)
Definition strip (s : string) : string := rstrip (lstrip s).

Definition lower_ascii (a : ascii) : ascii :=
  let n := N_of_ascii a in
  if ((65 <=? n) && (n <=? 90))%N then ascii_of_N (n + 32) else a.

(** [s.lower()], on the ASCII letters *)
Fixpoint lower (s : string) : string :=
  match s with
  | EmptyString => EmptyString
  | String a r => String (lower_ascii a) (lower r)
  end.

Fixpoint after_last_dot (s : string) : option string :=
  match s with
  | EmptyString => None
  | String a r =>
      match after_last_dot r with
      | Some t => Some t
      | None => if decide (a = "."%char) then Some r else None
      end
  end.

(** [s.split('.')[-1]]: what follows the last dot, the whole of [s] when
    it has none. *)
Definition split_dot_last (s : string) : string :=
  default s (after_last_dot s).

(** Numbers a template context can hold: [round(0, 2)] is the [int] 0,
    [round(x, 2)] of a float is a float. *)
Inductive num (F : Type) : Type :=
| Int (z : Z)
| Float (x : F).
Global Arguments Int {F} z.
Global Arguments Float {F} x.

End Py.
Export Py.

(** ** models.py *)

Module Models.

(** [class Student(models.Model)]; the [id] column is the key of the table. *)
Record Student : Type := {
  student_name : string;
  roll_number : string;
  course_name : string;
  created_at : Z
}.

(** [class Absence(models.Model)]; [student] holds the foreign key. *)
Record Absence : Type := {
  student : Z;
  date_time : Z
}.

Global Instance Student_eq_dec : EqDecision Student.
Proof. solve_decision. Defined.
Global Instance Absence_eq_dec : EqDecision Absence.
Proof. solve_decision. Defined.

Record DB : Type := {
  students : gmap Z Student;
  absences : gmap Z Absence
}.

(** Time stamps are microseconds since the epoch, in UTC
    ([USE_TZ = True], [TIME_ZONE = "UTC"]). *)
Definition microseconds_per_day : Z := 86400000000.

(** [dt.date()], and the [__date] transform of a lookup: the day number. *)
Definition date (t : Z) : Z := t `div` microseconds_per_day.

Definition max_length_student_name : nat := 100.
Definition max_length_roll_number : nat := 20.
Definition max_length_course_name : nat := 100.

End Models.
Export Models.

(** ** What the views use from outside the repository *)

Module Env.

(** The database behind [DATABASE_URL]: how it orders text
    ([order_by('roll_number')]) and whether it rejects a value longer than
    the column's [max_length] (PostgreSQL does, SQLite does not). *)
Class Backend : Type := {
  collate_le : relation string;
  collate_dec :: RelDecision collate_le;
  collate_total :: Total collate_le;
  collate_trans :: Transitive collate_le;
  enforces_max_length : bool
}.

(** Python's float arithmetic, as far as the views use it:
    [a / b] on two ints with [b] non-zero, [x * n], and [round(x, n)]. *)
Class PyFloat : Type := {
  pyfloat : Type;
  int_truediv : Z → Z → pyfloat;
  float_mul_int : pyfloat → Z → pyfloat;
  float_round : pyfloat → Z → pyfloat
}.

(** [datetime.strptime(s, '%Y-%m-%d').date()] as a day number; [None]
    stands for the [ValueError] of a string that does not parse. *)
Class Datetime : Type := {
  strptime_Ymd : string → option Z
}.

(** Python's [int(s)] on a [str]: the number, or the message of the
    [ValueError] raised on a text that does not read as one; and
    [repr(s)], which Django quotes in a message of its own. *)
Class PyStr : Type := {
  int_str : string → Z + string;
  repr : string → string
}.

(** [int(s)] *)
Definition int `{PyStr} (s : string) : outcome Z :=
  match int_str s with
  | inl z => Return z
  | inr msg => Raise (ValueError msg)
  end.

(** A row of a [DataFrame] as [iterrows] yields it: column label to the
    text [str(...)] gives for the cell. *)
Record DataFrame : Type := {
  columns : list string;
  rows : list (gmap string string)
}.

(** [pd.read_csv] and [pd.read_excel(..., engine='openpyxl')] on the bytes
    of the upload; either may raise. *)
Class Pandas : Type := {
  read_csv : string → outcome DataFrame;
  read_excel : string → outcome DataFrame
}.

End Env.
Export Env.

(** ** The ORM: querysets over the two tables *)

Module Orm.

(** The statements that change the store. *)
Inductive SqlWrite : Type :=
| InsertStudent (pk : Z) (row : Student)
| InsertAbsence (pk : Z) (row : Absence)
| DeleteAbsence (deleted : gmap Z Absence).

(** A computation reads the store and gives back its outcome, the store
    it leaves and the writes it issued, in order. *)
Definition M (A : Type) : Type := DB → outcome A * DB * list SqlWrite.

Definition result {A} (r : outcome A * DB * list SqlWrite) : outcome A := r.1.1.
Definition store {A} (r : outcome A * DB * list SqlWrite) : DB := r.1.2.
Definition writes {A} (r : outcome A * DB * list SqlWrite) : list SqlWrite := r.2.

Global Instance M_ret : MRet M := λ A a db, (Return a, db, []).

Global Instance M_bind : MBind M := λ A B f m db,
  match m db with
  | (Return a, db1, w1) =>
      match f a db1 with
      | (r, db2, w2) => (r, db2, w1 ++ w2)
      end
  | (Raise e, db1, w1) => (Raise e, db1, w1)
  end.

Definition raise {A} (e : exn) : M A := λ db, (Raise e, db, []).

Definition lift {A} (o : outcome A) : M A := λ db, (o, db, []).

(** A read of the store. *)
Definition query {A} (f : DB → A) : M A := λ db, (Return (f db), db, []).

(** [try: body  except Exception as e: handler(e)] *)
Definition try_except {A} (body : M A) (handler : exn → M A) : M A := λ db,
  match body db with
  | (Return a, db1, w1) => (Return a, db1, w1)
  | (Raise e, db1, w1) =>
      match handler e db1 with
      | (r, db2, w2) => (r, db2, w1 ++ w2)
      end
  end.

(** [QuerySet.get]: the single row of the queryset. *)
Definition qs_get {A} (qs : gmap Z A) : outcome (Z * A) :=
  match map_to_list qs with
  | [] => Raise DoesNotExist
  | [r] => Return r
  | _ :: _ :: _ => Raise MultipleObjectsReturned
  end.

(** [QuerySet.count] *)
Definition qs_count {A} (qs : gmap Z A) : Z := Z.of_nat (size qs).

(** [QuerySet.exists] *)
Definition qs_exists {A} (qs : gmap Z A) : bool := bool_decide (qs ≠ ∅).

(** The key an [AutoField] gives a new row: one the table does not use. *)
Definition fresh_pk {A} (table : gmap Z A) : Z := fresh (dom table).

(** [AutoField.get_prep_value], what a lookup on [id] makes of the value
    it is given: [None] stays [None], a text is read with [int], and a
    text that is no number is refused with a [ValueError] in Django's
    wording. *)
Definition AutoField_get_prep_value `{PyStr} (value : option string)
  : outcome (option Z) :=
  match value with
  | None => Return None
  | Some text =>
      match int text with
      | Return k => Return (Some k)
      | Raise _ =>
          Raise (ValueError
                   ("Field 'id' expected a number but got " +:+ repr text +:+ "."))
      end
  end.

(** The row of a primary key: the key of the map. [None] is compared as
    SQL [NULL] and matches no row; so does a number that no key equals,
    whatever its size (Django 4.2 and later answer a number outside the
    range of the column with the empty result). *)
Definition Student_get_pk (pk : option Z) : M (Z * Student) := λ db,
  match pk ≫= λ k, (k,.) <$> students db !! k with
  | Some r => (Return r, db, [])
  | None => (Raise DoesNotExist, db, [])
  end.

(** [Student.objects.get(id=...)] *)
Definition Student_get_id `{PyStr} (id : option string) : M (Z * Student) :=
  pk ← lift (AutoField_get_prep_value id);
  Student_get_pk pk.

(** [get_object_or_404(Student, id=...)]: only [DoesNotExist] is turned
    into [Http404]. *)
Definition get_object_or_404 `{PyStr} (id : option string) : M (Z * Student) :=
  try_except (Student_get_id id)
    (λ e, match e with DoesNotExist => raise Http404 | _ => raise e end).

(** [Student.objects.filter(roll_number=...)] *)
Definition Student_filter_roll (roll : string) (table : gmap Z Student)
  : gmap Z Student :=
  filter (λ r, roll_number r.2 = roll) table.

(** [Student.objects.count()] *)
Definition Student_count : M Z := λ db, (Return (qs_count (students db)), db, []).

(** Some text column of the row is longer than its [max_length]. Lengths
    count the characters of the embedding's strings, which are Python's on
    ASCII text. *)
Definition exceeds_max_length (row : Student) : bool :=
  bool_decide (max_length_roll_number < String.length (roll_number row)
               ∨ max_length_student_name < String.length (student_name row)
               ∨ max_length_course_name < String.length (course_name row))%nat.

(** The [INSERT] of a student; a backend that enforces [max_length]
    refuses an over-long value. *)
Definition Student_create `{Backend} (row : Student) : M (Z * Student) := λ db,
  if enforces_max_length && exceeds_max_length row
  then (Raise DataError, db, [])
  else
    let pk := fresh_pk (students db) in
    (Return (pk, row),
     {| students := <[pk := row]> (students db); absences := absences db |},
     [InsertStudent pk row]).

(** [Student.objects.get_or_create(roll_number=..., defaults={...})];
    [now] is what [auto_now_add] reads if the row is created. *)
Definition Student_get_or_create `{Backend}
    (roll : string) (defaults_student_name defaults_course_name : string)
    (now : Z) : M (Z * Student * bool) := λ db,
  match qs_get (Student_filter_roll roll (students db)) with
  | Return r => (Return (r, false), db, [])
  | Raise DoesNotExist =>
      (r ← Student_create {| student_name := defaults_student_name;
                             roll_number := roll;
                             course_name := defaults_course_name;
                             created_at := now |};
       mret (r, true)) db
  | Raise e => (Raise e, db, [])
  end.

(** [Student.objects.all().order_by('roll_number')], evaluated. *)
Definition roll_le `{Backend} : relation (Z * Student) :=
  λ x y, collate_le (roll_number x.2) (roll_number y.2).

Global Instance roll_le_dec `{Backend} : RelDecision roll_le.
Proof. intros x y. unfold roll_le. apply _. Defined.

Definition Student_order_by_roll_number `{Backend} (table : gmap Z Student)
  : list (Z * Student) :=
  merge_sort roll_le (map_to_list table).

(** [Absence.objects.filter(date_time__date=day)] *)
Definition Absence_filter_date (day : Z) (table : gmap Z Absence)
  : gmap Z Absence :=
  filter (λ r, date (date_time r.2) = day) table.

(** [Absence.objects.filter(student=s, date_time__date=day)] *)
Definition Absence_filter (s : Z) (day : Z) (table : gmap Z Absence)
  : gmap Z Absence :=
  filter (λ r, student r.2 = s ∧ date (date_time r.2) = day) table.

(** [Absence.objects.get_or_create(student=s, date_time__date=day,
    defaults={'date_time': t})]: the lookup with [__] is left out of the
    row that is created. *)
Definition Absence_get_or_create (s : Z) (day : Z) (defaults_date_time : Z)
  : M (Z * Absence * bool) := λ db,
  match qs_get (Absence_filter s day (absences db)) with
  | Return r => (Return (r, false), db, [])
  | Raise DoesNotExist =>
      let row := {| student := s; date_time := defaults_date_time |} in
      let pk := fresh_pk (absences db) in
      (Return ((pk, row), true),
       {| students := students db; absences := <[pk := row]> (absences db) |},
       [InsertAbsence pk row])
  | Raise e => (Raise e, db, [])
  end.

(** [Absence.objects.filter(student=s, date_time__date=day).delete()]:
    one [DELETE] for the rows of the queryset, however many they are. *)
Definition Absence_delete (s : Z) (day : Z) : M unit := λ db,
  let gone := Absence_filter s day (absences db) in
  (Return (),
   {| students := students db;
      absences := filter (λ r, ¬ (student r.2 = s ∧ date (date_time r.2) = day))
                         (absences db) |},
   [DeleteAbsence gone]).

End Orm.
Export Orm.

(** ** views.py *)

Module TakeAttendance.
(** The context of [attendance/take_attendance.html]. *)
Record context `{PyFloat} : Type := {
  current_student : Z * Student;
  current_index : Z;
  total_students : Z;
  progress : pyfloat;
  is_absent_today : bool
}.
End TakeAttendance.

Module PrintAbsentees.
(** The context of [attendance/print_absentees.html]. Every absence has
    its student (the foreign key is enforced), so [select_related] and
    [order_by] change neither which rows the queryset holds nor their
    count; the context keeps the rows by key. *)
Record context `{PyFloat} : Type := {
  absent_students : gmap Z Absence;
  date : Z;
  total_absent : Z;
  total_present : Z;
  attendance_percentage : num pyfloat
}.
End PrintAbsentees.

Module AbsenteesList.
(** The context of [attendance/absentees_list.html]. *)
Record context : Type := {
  absent_students : gmap Z Absence;
  filter_date : Z;
  total_absent : Z
}.
End AbsenteesList.

Module AttendanceList.
(** One dict of [students_with_status]. *)
Record status : Type := {
  student : Z * Student;
  is_absent : bool;
  sl_no : Z
}.

(** The context of [attendance/attendance_list.html]. *)
Record context : Type := {
  students_with_status : list status
}.
End AttendanceList.

Module AttendanceComplete.
(** The context of [attendance/attendance_complete.html]. *)
Record context : Type := {
  absent_students : gmap Z Absence;
  total_absent : Z
}.
End AttendanceComplete.

Module Views.

Record UploadedFile : Type := {
  name : string;
  content : string
}.

(** What the views read of an [HttpRequest]: the method, the parameters
    of the query string and of the form as the text they arrive as
    ([None] for a key that is missing), and the uploaded file. *)
Record HttpRequest : Type := {
  method : string;
  GET_index : option string;
  GET_date : option string;
  POST_student_id : option string;
  POST_action : option string;
  POST_current_index : option string;
  FILES_excel_file : option UploadedFile
}.

(** [int(params.get(key, 0))]: the text under the key read as a number,
    0 when the key is missing. *)
Definition int_get_0 `{PyStr} (value : option string) : outcome Z :=
  match value with
  | Some text => int text
  | None => Return 0
  end.

Inductive Location : Type :=
| Named (url_name : string)
| TakeAttendanceIndex (next_index : Z).

Inductive HttpResponse (C : Type) : Type :=
| Render (template : string) (context : C)
| Redirect (to : Location).
Global Arguments Render {C} template context.
Global Arguments Redirect {C} to.

(** [messages.error] and [messages.success] of [import_students]. *)
Inductive Message : Type :=
| MsgError (text : string)
| MsgErrorImporting (e : exn)
| MsgSuccessImported (students_created : Z).

(** [a / b] on ints *)
Definition truediv `{PyFloat} (a b : Z) : outcome pyfloat :=
  if decide (b = 0) then Raise ZeroDivisionError else Return (int_truediv a b).

(** [round(x, n)] for [0 <= n]: an int comes back as it is. *)
Definition round `{PyFloat} (x : num pyfloat) (n : Z) : num pyfloat :=
  match x with
  | Int z => Int z
  | Float f => Float (float_round f n)
  end.

(** [row[label]] on a row of the frame *)
Definition getitem (row : gmap string string) (label : string) : outcome string :=
  match row !! label with
  | Some v => Return v
  | None => Raise (KeyError label)
  end.

(** [students[k]] on an evaluated queryset *)
Definition qs_getitem {A} (qs : list A) (k : Z) : outcome A :=
  if decide (k < 0) then Raise (ValueError "Negative indexing is not supported.")
  else match qs !! Z.to_nat k with
       | Some x => Return x
       | None => Raise IndexError
       end.

Definition required_columns : list string :=
  ["Student Name"; "Roll Number"; "Course Name"].

(** The body of [for index, row in df.iterrows()]. The [k]-th student
    created by the request gets the [k]-th reading of the clock as
    [created_at]. *)
Fixpoint import_rows `{Backend} (clock : nat → Z)
    (rs : list (gmap string string)) (students_created : Z) : M Z :=
  match rs with
  | [] => mret students_created
  | row :: rest =>
      roll ← lift (getitem row "Roll Number");
      sname ← lift (getitem row "Student Name");
      cname ← lift (getitem row "Course Name");
      '(_, created) ← Student_get_or_create (strip roll) (strip sname)
                        (strip cname) (clock (Z.to_nat students_created));
      import_rows clock rest
        (if created : bool then students_created + 1 else students_created)
  end.

(** [import_students] from the column check on. *)
Definition import_dataframe `{Backend} (clock : nat → Z) (df : DataFrame)
  : M (HttpResponse unit * list Message) :=
  if bool_decide (Forall (λ col, col ∈ columns df) required_columns) then
    students_created ← import_rows clock (rows df) 0;
    mret (Redirect (Named "attendance_list"),
          [MsgSuccessImported students_created])
  else
    mret (Redirect (Named "import_students"),
          [MsgError "Excel file must contain columns: Student Name, Roll Number, Course Name"]).

(** The reader the extension of the file name selects, if any. *)
Definition read_upload `{Pandas} (excel_file : UploadedFile)
  : option (outcome DataFrame) :=
  let file_extension := lower (split_dot_last (name excel_file)) in
  if decide (file_extension = "csv") then Some (read_csv (content excel_file))
  else if decide (file_extension ∈ ["xlsx"; "xls"])
       then Some (read_excel (content excel_file))
       else None.

Definition import_students `{Backend, Pandas} (clock : nat → Z)
    (request : HttpRequest) : M (HttpResponse unit * list Message) :=
  match (if decide (method request = "POST") then FILES_excel_file request
         else None) with
  | Some excel_file =>
      if decide (name excel_file = "") then
        mret (Render "attendance/import_students.html" (), [])
      else
        try_except
          (match read_upload excel_file with
           | Some parsed => df ← lift parsed; import_dataframe clock df
           | None =>
               mret (Redirect (Named "import_students"),
                     [MsgError "Unsupported file format. Please use .xlsx, .xls, or .csv files"])
           end)
          (λ e, mret (Redirect (Named "import_students"), [MsgErrorImporting e]))
  | None => mret (Render "attendance/import_students.html" (), [])
  end.

Definition take_attendance `{Backend, PyFloat, PyStr} (clock : nat → Z)
    (request : HttpRequest) : M (HttpResponse TakeAttendance.context) :=
  students ← query (λ db, Student_order_by_roll_number (students db));
  current_index ← lift (int_get_0 (GET_index request));
  if decide (Z.of_nat (length students) ≤ current_index) then
    mret (Redirect (Named "attendance_complete"))
  else
    current_student ← lift (qs_getitem students current_index);
    let today := date (clock 0%nat) in
    is_absent_today ← query (λ db,
      qs_exists (Absence_filter current_student.1 today (absences db)));
    q ← lift (truediv (current_index + 1) (Z.of_nat (length students)));
    mret (Render "attendance/take_attendance.html"
            {| TakeAttendance.current_student := current_student;
               TakeAttendance.current_index := current_index;
               TakeAttendance.total_students := Z.of_nat (length students);
               TakeAttendance.progress := float_mul_int q 100;
               TakeAttendance.is_absent_today := is_absent_today |}).

Definition mark_attendance `{PyStr} (clock : nat → Z) (request : HttpRequest)
  : M (HttpResponse unit) :=
  if decide (method request = "POST") then
    let student_id := POST_student_id request in
    let action := POST_action request in
    current_index ← lift (int_get_0 (POST_current_index request));
    student ← get_object_or_404 student_id;
    let today := date (clock 0%nat) in
    _ ← (if decide (action = Some "absent") then
           _ ← Absence_get_or_create student.1 today (clock 1%nat); mret ()
         else
           Absence_delete student.1 today);
    let next_index := current_index + 1 in
    mret (Redirect (TakeAttendanceIndex next_index))
  else
    mret (Redirect (Named "take_attendance")).

Definition print_absentees `{PyFloat} (clock : nat → Z) (request : HttpRequest)
  : M (HttpResponse PrintAbsentees.context) :=
  let today := date (clock 0%nat) in
  absent_students ← query (λ db, Absence_filter_date today (absences db));
  total_students ← Student_count;
  let total_present := total_students - qs_count absent_students in
  x ← (if decide (total_students > 0) then
         q ← lift (truediv total_present total_students);
         mret (Float (float_mul_int q 100))
       else mret (Int 0));
  let attendance_percentage := round x 2 in
  mret (Render "attendance/print_absentees.html"
          {| PrintAbsentees.absent_students := absent_students;
             PrintAbsentees.date := today;
             PrintAbsentees.total_absent := qs_count absent_students;
             PrintAbsentees.total_present := total_present;
             PrintAbsentees.attendance_percentage := attendance_percentage |}).

(** The local [filter_date] is bound by the [try] body when the date
    parses and by the [else] branch; the [except] branch leaves it
    unbound, and building the context reads it. *)
Definition absentees_list `{Datetime} (clock : nat → Z) (request : HttpRequest)
  : M (HttpResponse AbsenteesList.context) :=
  let date_filter := GET_date request in
  locals ← (match date_filter with
            | Some (String a r as s) =>
                match strptime_Ymd s with
                | Some filter_date =>
                    absent_students ←
                      query (λ db, Absence_filter_date filter_date (absences db));
                    mret (absent_students, Some filter_date)
                | None => mret ((∅ : gmap Z Absence), (None : option Z))
                end
            | _ =>
                let today := date (clock 0%nat) in
                absent_students ←
                  query (λ db, Absence_filter_date today (absences db));
                mret (absent_students, Some today)
            end);
  let absent_students := locals.1 in
  filter_date ← lift (match locals.2 with
                      | Some d => Return d
                      | None => Raise (UnboundLocalError "filter_date")
                      end);
  mret (Render "attendance/absentees_list.html"
          {| AbsenteesList.absent_students := absent_students;
             AbsenteesList.filter_date := filter_date;
             AbsenteesList.total_absent := qs_count absent_students |}).

Definition home (request : HttpRequest) : M (HttpResponse unit) :=
  mret (Render "attendance/home.html" ()).

(** [qs.values_list('student_id', flat=True)], evaluated. *)
Definition values_list_student_id (qs : gmap Z Absence) : list Z :=
  (λ r, student r.2) <$> map_to_list qs.

(** The loop of [attendance_list]: one dict is appended per student,
    numbered by the length the list has reached. *)
Fixpoint attendance_list_loop (students : list (Z * Student))
    (today_absences : list Z)
    (students_with_status : list AttendanceList.status)
  : list AttendanceList.status :=
  match students with
  | [] => students_with_status
  | student :: rest =>
      attendance_list_loop rest today_absences
        (students_with_status ++
           [ {| AttendanceList.student := student;
                AttendanceList.is_absent := bool_decide (student.1 ∈ today_absences);
                AttendanceList.sl_no := Z.of_nat (length students_with_status) + 1 |} ])
  end.

Definition attendance_list `{Backend} (clock : nat → Z) (request : HttpRequest)
  : M (HttpResponse AttendanceList.context) :=
  students ← query (λ db, Student_order_by_roll_number (students db));
  let today := date (clock 0%nat) in
  today_absences ← query (λ db,
    values_list_student_id (Absence_filter_date today (absences db)));
  let students_with_status := attendance_list_loop students today_absences [] in
  mret (Render "attendance/attendance_list.html"
          {| AttendanceList.students_with_status := students_with_status |}).

Definition attendance_complete (clock : nat → Z) (request : HttpRequest)
  : M (HttpResponse AttendanceComplete.context) :=
  let today := date (clock 0%nat) in
  absent_students ← query (λ db, Absence_filter_date today (absences db));
  mret (Render "attendance/attendance_complete.html"
          {| AttendanceComplete.absent_students := absent_students;
             AttendanceComplete.total_absent := qs_count absent_students |}).

End Views.
Export Views.

(** ** urls.py *)

Module Urls.

(** [urlpatterns]: the route of each [path(...)] and its [name]. *)
Definition urlpatterns : list (string * string) :=
  [ ("", "home");
    ("import-students/", "import_students");
    ("attendance-list/", "attendance_list");
    ("take-attendance/", "take_attendance");
    ("mark-attendance/", "mark_attendance");
    ("attendance-complete/", "attendance_complete");
    ("print-absentees/", "print_absentees");
    ("absentees-list/", "absentees_list") ].

(** [reverse(name)], as what [redirect(name)] needs of it: the route of the
    first pattern of that name, [None] standing for [NoReverseMatch]. *)
Definition reverse (name : string) : option string :=
  (λ r, r.2.1) <$> list_find (λ p, p.2 = name) urlpatterns.

(** The pattern a request path (after the leading slash, without the query
    string) is routed to. *)
Definition resolve (path : string) : option string :=
  (λ r, r.2.2) <$> list_find (λ p, p.1 = path) urlpatterns.

End Urls.
Export Urls.

(** ** Instances of the environment, to run the views *)

Module Instances.

(** A database with the binary collation. *)
Definition binary_backend (enforce : bool) : Backend :=
  {| collate_le := String.le; enforces_max_length := enforce |}.

(** IEEE binary64 on its specification in [Z]. An int converts exactly
    below [2 ^ 53], where the quotient of the converted operands is
    Python's [a / b]. *)
Definition b64 (z : Z) : spec_float := binary_normalize 53 1024 z 0 false.

Definition half_even (n d : Z) : Z :=
  let q := n `div` d in
  match 2 * (n `mod` d) ?= d with
  | Lt => q
  | Gt => q + 1
  | Eq => if Z.even q then q else q + 1
  end.

(** [round(x, n)]: the double nearest to the decimal with [n] places
    nearest to [x], ties to even. *)
Definition b64_round (x : spec_float) (n : Z) : spec_float :=
  match x with
  | S754_finite s m e =>
      let scaled := Z.pos m * 10 ^ n in
      let k := if 0 <=? e then scaled * 2 ^ e else half_even scaled (2 ^ (- e)) in
      if k =? 0 then S754_zero s
      else SFdiv 53 1024 (b64 (if s then - k else k)) (b64 (10 ^ n))
  | _ => x
  end.

Definition binary64 : PyFloat :=
  {| pyfloat := spec_float;
     int_truediv := λ a b, SFdiv 53 1024 (b64 a) (b64 b);
     float_mul_int := λ x n, SFmul 53 1024 x (b64 n);
     float_round := b64_round |}.

(** An ASCII digit. *)
Definition digit (a : ascii) : option Z :=
  let n := N_of_ascii a in
  if ((48 <=? n) && (n <=? 57))%N then Some (Z.of_N n - 48) else None.

Definition digit_in (lo hi : Z) (a : ascii) : option Z :=
  d ← digit a; if decide (lo ≤ d ≤ hi) then Some d else None.

(** [int] on ASCII text, for numbers below the interpreter's cap on the
    digits of a conversion: blanks around, a sign, digits, with single
    underscores between digits. *)
Definition int_space (a : ascii) : bool :=
  let n := N_of_ascii a in
  ((9 <=? n) && (n <=? 13) || (n =? 32))%N.

Fixpoint skip_space (l : list ascii) : list ascii :=
  match l with
  | [] => []
  | a :: r => if int_space a then skip_space r else l
  end.

Fixpoint int_digits (l : list ascii) (acc : Z) (after_digit : bool) : option Z :=
  match l with
  | [] => if after_digit then Some acc else None
  | a :: r =>
      match digit a with
      | Some d => int_digits r (10 * acc + d) true
      | None =>
          if decide (a = "_"%char) then
            if after_digit then int_digits r acc false else None
          else None
      end
  end.

Definition int_literal (s : string) : option Z :=
  let l := Stdlib.Strings.String.list_ascii_of_string s in
  match rev (skip_space (rev (skip_space l))) with
  | [] => None
  | a :: r =>
      if decide (a = "-"%char) then Z.opp <$> int_digits r 0 false
      else if decide (a = "+"%char) then int_digits r 0 false
      else int_digits (a :: r) 0 false
  end.

(** [repr] on ASCII text. *)
Definition backslash : ascii := ascii_of_N 92.
Definition single_quote : ascii := ascii_of_N 39.
Definition double_quote : ascii := ascii_of_N 34.

Fixpoint holds (a : ascii) (s : string) : bool :=
  match s with
  | EmptyString => false
  | String b r => bool_decide (a = b) || holds a r
  end.

Definition hex_digit (n : N) : ascii :=
  if (n <? 10)%N then ascii_of_N (48 + n) else ascii_of_N (87 + n).

Definition repr_char (quote a : ascii) : string :=
  let n := N_of_ascii a in
  if bool_decide (a = quote) || bool_decide (a = backslash)
  then String backslash (String a EmptyString)
  else if (n =? 9)%N then String backslash "t"
  else if (n =? 10)%N then String backslash "n"
  else if (n =? 13)%N then String backslash "r"
  else if ((n <? 32) || (n =? 127))%N
  then String backslash
         (String "x"
            (String (hex_digit (n `div` 16))
               (String (hex_digit (n `mod` 16)) EmptyString)))
  else String a EmptyString.

Fixpoint repr_body (quote : ascii) (s : string) : string :=
  match s with
  | EmptyString => EmptyString
  | String a r => repr_char quote a +:+ repr_body quote r
  end.

Definition ascii_repr (s : string) : string :=
  let quote := if holds single_quote s && negb (holds double_quote s)
               then double_quote else single_quote in
  String quote (repr_body quote s +:+ String quote EmptyString).

Definition ascii_str : PyStr :=
  {| int_str := λ s,
       match int_literal s with
       | Some z => inl z
       | None => inr ("invalid literal for int() with base 10: " +:+ ascii_repr s)
       end;
     repr := ascii_repr |}.

(** [strptime(s, '%Y-%m-%d')] on ASCII text. The month:
    [1[0-2]|0[1-9]|[1-9]] *)
Definition parse_month (l : list ascii) : option (Z * list ascii) :=
  match l with
  | a :: b :: r =>
      match digit_in 1 1 a, digit_in 0 2 b with
      | Some _, Some d => Some (10 + d, r)
      | _, _ =>
          match digit_in 0 0 a, digit_in 1 9 b with
          | Some _, Some d => Some (d, r)
          | _, _ => (., b :: r) <$> digit_in 1 9 a
          end
      end
  | a :: r => (., r) <$> digit_in 1 9 a
  | [] => None
  end.

(** The day: [3[0-1]|[1-2]\d|0[1-9]|[1-9]| [1-9]] *)
Definition parse_day (l : list ascii) : option (Z * list ascii) :=
  match l with
  | a :: b :: r =>
      match digit_in 3 3 a, digit_in 0 1 b with
      | Some _, Some d => Some (30 + d, r)
      | _, _ =>
          match digit_in 1 2 a, digit b with
          | Some t, Some d => Some (10 * t + d, r)
          | _, _ =>
              match digit_in 0 0 a, digit_in 1 9 b with
              | Some _, Some d => Some (d, r)
              | _, _ =>
                  match digit_in 1 9 a with
                  | Some d => Some (d, b :: r)
                  | None =>
                      if decide (a = " "%char) then (., r) <$> digit_in 1 9 b
                      else None
                  end
              end
          end
      end
  | a :: r => (., r) <$> digit_in 1 9 a
  | [] => None
  end.

Definition is_leap (y : Z) : bool :=
  bool_decide (y `mod` 4 = 0 ∧ (y `mod` 100 ≠ 0 ∨ y `mod` 400 = 0)).

Definition days_in_month (y m : Z) : Z :=
  if decide (m = 2) then (if is_leap y then 29 else 28)
  else if decide (m ∈ [4; 6; 9; 11]) then 30 else 31.

(** The day number of a civil date, 1970-01-01 being day 0. *)
Definition days_from_civil (y m d : Z) : Z :=
  let y' := if decide (m ≤ 2) then y - 1 else y in
  let era := y' `div` 400 in
  let yoe := y' - era * 400 in
  let doy := (153 * (if decide (2 < m) then m - 3 else m + 9) + 2) `div` 5 + d - 1 in
  era * 146097 + (yoe * 365 + yoe `div` 4 - yoe `div` 100 + doy) - 719468.

Definition ascii_strptime_Ymd (s : string) : option Z :=
  match Stdlib.Strings.String.list_ascii_of_string s with
  | y1 :: y2 :: y3 :: y4 :: dash :: r =>
      a ← digit y1; b ← digit y2; c ← digit y3; d ← digit y4;
      let y := 1000 * a + 100 * b + 10 * c + d in
      if decide (dash = "-"%char) then
        '(m, r1) ← parse_month r;
        match r1 with
        | dash1 :: r2 =>
            if decide (dash1 = "-"%char) then
              '(dd, r3) ← parse_day r2;
              if decide (r3 = [] ∧ 1 ≤ y ∧ dd ≤ days_in_month y m)
              then Some (days_from_civil y m dd) else None
            else None
        | [] => None
        end
      else None
  | _ => None
  end.

Definition ascii_datetime : Datetime := {| strptime_Ymd := ascii_strptime_Ymd |}.

(** A reader of unquoted comma-separated text: the first line names the
    columns, every further non-empty line is a row. *)
Fixpoint split_on (sep : ascii) (s : string) : list string :=
  match s with
  | EmptyString => [EmptyString]
  | String a r =>
      if decide (a = sep) then EmptyString :: split_on sep r
      else match split_on sep r with
           | w :: ws => String a w :: ws
           | [] => [String a EmptyString]
           end
  end.

Definition plain_csv (text : string) : outcome DataFrame :=
  match filter (λ l, l ≠ EmptyString) (split_on (ascii_of_N 10) text) with
  | header :: lines =>
      let cols := split_on ","%char header in
      Return {| columns := cols;
                rows := (λ l, list_to_map (zip cols (split_on ","%char l))) <$> lines |}
  | [] => Raise (LibraryError "No columns to parse from file")
  end.

Definition plain_pandas : Pandas :=
  {| read_csv := plain_csv;
     read_excel := λ _, Raise (LibraryError "File is not a zip file") |}.

(** The request the form of the walker posts. *)
Definition POST_mark (student_id : string) (current_index : string)
    (decision : string) : HttpRequest :=
  {| method := "POST"; GET_index := None; GET_date := None;
     POST_student_id := Some student_id; POST_action := Some decision;
     POST_current_index := Some current_index; FILES_excel_file := None |}.

Definition GET_request (index : option string) (date_param : option string)
  : HttpRequest :=
  {| method := "GET"; GET_index := index; GET_date := date_param;
     POST_student_id := None; POST_action := None;
     POST_current_index := None; FILES_excel_file := None |}.

Definition POST_upload (file : UploadedFile) : HttpRequest :=
  {| method := "POST"; GET_index := None; GET_date := None;
     POST_student_id := None; POST_action := None;
     POST_current_index := None; FILES_excel_file := Some file |}.

End Instances.

(** ** The terms the properties are stated in *)

Module Terms.

(** The roll numbers the roster holds. *)
Definition roster_rolls (table : gmap Z Student) : gset string :=
  map_to_set (λ _ s, roll_number s) table.

(** The roll numbers of the rows of a frame, trimmed as the import
    trims them, in the order of the rows. *)
Definition row_rolls (rs : list (gmap string string)) : list string :=
  (λ row, strip (default "" (row !! "Roll Number"))) <$> rs.

(** The number of distinct roll numbers of a frame that a roster does not
    hold yet. *)
Definition new_rolls (df : DataFrame) (table : gmap Z Student) : Z :=
  Z.of_nat (size (list_to_set (row_rolls (rows df)) ∖ roster_rolls table)).

(** The number of distinct roll numbers of a frame. *)
Definition distinct_rolls (df : DataFrame) : Z :=
  Z.of_nat (size (list_to_set (row_rolls (rows df)) : gset string)).

(** [db'] has every row of [db], the same absences, and for a roll number
    that [db] holds the very students [db] holds for it. *)
Definition extends (db db' : DB) : Prop :=
  absences db' = absences db
  ∧ students db ⊆ students db'
  ∧ ∀ roll, Student_filter_roll roll (students db) ≠ ∅ →
      Student_filter_roll roll (students db')
      = Student_filter_roll roll (students db).

(** The invariant of the data model: at most one Absence row per student
    and calendar day. The schema does not enforce it. *)
Definition at_most_one_per_day (table : gmap Z Absence) : Prop :=
  ∀ s day, (size (Absence_filter s day table) ≤ 1)%nat.

(** A roll number is settled in a store that holds exactly one student
    for it: [get_or_create] then finds that student and writes nothing. *)
Definition settled (roll : string) (db : DB) : Prop :=
  ∃ r, qs_get (Student_filter_roll roll (students db)) = Return r.

(** Referential integrity: every Absence row points to a student of the
    roster, as the foreign key asks. *)
Definition referential (db : DB) : Prop :=
  ∀ k a, absences db !! k = Some a → is_Some (students db !! student a).

(** The roster holds at most one student per roll number, as
    [unique=True] asks. *)
Definition unique_rolls (table : gmap Z Student) : Prop :=
  ∀ roll, (size (Student_filter_roll roll table) ≤ 1)%nat.

(** An entry of the roster page with the flag of student [sid] set to [b]. *)
Definition with_flag (sid : Z) (b : bool) (e : AttendanceList.status)
  : AttendanceList.status :=
  if decide ((AttendanceList.student e).1 = sid)
  then {| AttendanceList.student := AttendanceList.student e;
          AttendanceList.is_absent := b;
          AttendanceList.sl_no := AttendanceList.sl_no e |}
  else e.

(** The text holds a dot. *)
Fixpoint has_dot (s : string) : bool :=
  match s with
  | EmptyString => false
  | String a r => bool_decide (a = "."%char) || has_dot r
  end.

(** The reader [read_upload] selects for an extension. *)
Definition reader_for `{Pandas} (extension : string) (bytes : string)
  : option (outcome DataFrame) :=
  if decide (lower extension = "csv") then Some (read_csv bytes)
  else if decide (lower extension ∈ ["xlsx"; "xls"]) then Some (read_excel bytes)
  else None.

Definition is_InsertStudent (w : SqlWrite) : Prop :=
  match w with InsertStudent _ _ => True | _ => False end.

(** The row has a cell under each required label, as every row of a frame
    with these columns has. *)
Definition row_complete (row : gmap string string) : Prop :=
  is_Some (row !! "Roll Number") ∧ is_Some (row !! "Student Name")
  ∧ is_Some (row !! "Course Name").

(** The trimmed cells of the row fit the columns of the Student table. *)
Definition row_within_limits (row : gmap string string) : Prop :=
  (String.length (strip (default "" (row !! "Roll Number"))) ≤ max_length_roll_number
   ∧ String.length (strip (default "" (row !! "Student Name"))) ≤ max_length_student_name
   ∧ String.length (strip (default "" (row !! "Course Name"))) ≤ max_length_course_name)%nat.

End Terms.
Export Terms.

(** ** Stores and clocks to run the views on *)

Module Scenarios.
Import Instances.

(** A clock that reads 1000 microseconds past the epoch: day 0. *)
Definition noon : nat → Z := λ _, 1000.

Definition student_A : Student :=
  {| student_name := "A"; roll_number := "1"; course_name := "CS"; created_at := 0 |}.
Definition student_B : Student :=
  {| student_name := "B"; roll_number := "2"; course_name := "CS"; created_at := 0 |}.

(** The store before the first import. *)
Definition empty_db : DB := {| students := ∅; absences := ∅ |}.

(** The roster [A(roll "1"), B(roll "2")], nobody absent. *)
Definition roster_AB : DB :=
  {| students := {[ 1 := student_A; 2 := student_B ]}; absences := ∅ |}.

(** The same roster with [A] marked absent on day 0. *)
Definition A_absent : DB :=
  {| students := {[ 1 := student_A; 2 := student_B ]};
     absences := {[ 7 := {| student := 1; date_time := 500 |} ]} |}.

(** A store that holds two rows for [A] on day 0, which nothing in the
    schema forbids. *)
Definition A_absent_twice : DB :=
  {| students := {[ 1 := student_A; 2 := student_B ]};
     absences := {[ 7 := {| student := 1; date_time := 500 |};
                    8 := {| student := 1; date_time := 600 |} ]} |}.

(** An upload with a repeated row and an untrimmed roll number. *)
Definition upload_three_rows : UploadedFile :=
  {| name := "students.csv";
     content := "Student Name,Roll Number,Course Name
Jane,R1,CS
Bob, R2 ,Math
Jane,R1,CS
" |}.

Definition frame_three_rows : DataFrame :=
  {| columns := ["Student Name"; "Roll Number"; "Course Name"];
     rows := [ {[ "Student Name" := "Jane"; "Roll Number" := "R1"; "Course Name" := "CS" ]};
               {[ "Student Name" := "Bob"; "Roll Number" := " R2 "; "Course Name" := "Math" ]};
               {[ "Student Name" := "Jane"; "Roll Number" := "R1"; "Course Name" := "CS" ]} ] |}.

(** An upload whose first row bears a roll number of [roster_AB]. *)
Definition upload_known_roll : UploadedFile :=
  {| name := "students.csv";
     content := "Student Name,Roll Number,Course Name
Jane,1,CS
Bob,R2,Math
" |}.

Definition frame_known_roll : DataFrame :=
  {| columns := ["Student Name"; "Roll Number"; "Course Name"];
     rows := [ {[ "Student Name" := "Jane"; "Roll Number" := "1"; "Course Name" := "CS" ]};
               {[ "Student Name" := "Bob"; "Roll Number" := "R2"; "Course Name" := "Math" ]} ] |}.

(** An upload whose second row bears a roll number longer than the 20
    characters of the column, and the upload of its first row alone. *)
Definition upload_long_roll : UploadedFile :=
  {| name := "students.csv";
     content := "Student Name,Roll Number,Course Name
Jane,R1,CS
Bob,R23456789012345678901,Math
Ann,R3,CS
" |}.

Definition frame_long_roll : DataFrame :=
  {| columns := ["Student Name"; "Roll Number"; "Course Name"];
     rows := [ {[ "Student Name" := "Jane"; "Roll Number" := "R1"; "Course Name" := "CS" ]};
               {[ "Student Name" := "Bob"; "Roll Number" := "R23456789012345678901";
                  "Course Name" := "Math" ]};
               {[ "Student Name" := "Ann"; "Roll Number" := "R3"; "Course Name" := "CS" ]} ] |}.

Definition upload_first_row : UploadedFile :=
  {| name := "students.csv";
     content := "Student Name,Roll Number,Course Name
Jane,R1,CS
" |}.

Definition frame_first_row : DataFrame :=
  {| columns := ["Student Name"; "Roll Number"; "Course Name"];
     rows := [ {[ "Student Name" := "Jane"; "Roll Number" := "R1"; "Course Name" := "CS" ]} ] |}.

(** An upload without the course column. *)
Definition upload_two_columns : UploadedFile :=
  {| name := "students.csv";
     content := "Student Name,Roll Number
Jane,R1
" |}.

Definition frame_two_columns : DataFrame :=
  {| columns := ["Student Name"; "Roll Number"];
     rows := [ {[ "Student Name" := "Jane"; "Roll Number" := "R1" ]} ] |}.

End Scenarios.

(** * Properties *)

(** ** Querysets *)

Section querysets.
Context {A : Type}.
Implicit Types qs table : gmap Z A.

Lemma qs_get_cases qs :
  match qs_get qs with
  | Return r => qs = {[ r.1 := r.2 ]}
  | Raise DoesNotExist => qs = ∅
  | Raise MultipleObjectsReturned => (2 ≤ size qs)%nat
  | Raise _ => False
  end.
Proof.
  unfold qs_get. destruct (map_to_list qs) as [|[k x] [|r' l]] eqn:E.
  - by apply map_to_list_empty_iff.
  - by rewrite <- (list_to_map_to_list qs), E.
  - rewrite <- length_map_to_list, E. simpl. lia.
Qed.

Lemma qs_get_empty : qs_get (∅ : gmap Z A) = Raise DoesNotExist.
Proof. unfold qs_get. by rewrite map_to_list_empty. Qed.

Lemma qs_get_singleton k x : qs_get ({[ k := x ]} : gmap Z A) = Return (k, x).
Proof. unfold qs_get. by rewrite map_to_list_singleton. Qed.

Lemma qs_get_size_0 qs : size qs = 0%nat → qs_get qs = Raise DoesNotExist.
Proof. intros ->%map_size_empty_inv. apply qs_get_empty. Qed.

Lemma qs_get_size_1 qs : size qs = 1%nat → ∃ r, qs_get qs = Return r ∧ qs !! r.1 = Some r.2.
Proof.
  intros Hsize. pose proof (qs_get_cases qs) as Hc.
  destruct (qs_get qs) as [r|e].
  - exists r. split; [done|]. rewrite Hc. apply lookup_singleton_eq.
  - destruct e; try done.
    + subst qs. by rewrite map_size_empty in Hsize.
    + lia.
Qed.

Lemma qs_get_many qs : (2 ≤ size qs)%nat → qs_get qs = Raise MultipleObjectsReturned.
Proof.
  intros Hsize. pose proof (qs_get_cases qs) as Hc.
  destruct (qs_get qs) as [r|e].
  - rewrite Hc, map_size_singleton in Hsize. lia.
  - destruct e; try done. subst qs. rewrite map_size_empty in Hsize. lia.
Qed.

Lemma fresh_pk_unused table : table !! fresh_pk table = None.
Proof. apply not_elem_of_dom, is_fresh. Qed.

End querysets.

(** ** The rows of one student on one day *)

Section absence_rows.
Implicit Types (table : gmap Z Absence) (s day : Z).

Lemma Absence_filter_insert_today table s day t :
  date t = day →
  Absence_filter s day (<[fresh_pk table := {| student := s; date_time := t |}]> table)
  = <[fresh_pk table := {| student := s; date_time := t |}]> (Absence_filter s day table).
Proof. intros Hday. unfold Absence_filter. by rewrite map_filter_insert_True. Qed.

Lemma Absence_filter_fresh table s day : Absence_filter s day table !! fresh_pk table = None.
Proof.
  unfold Absence_filter. apply map_lookup_filter_None. left. apply fresh_pk_unused.
Qed.

(** What [delete()] leaves holds no row of the student on the day. *)
Lemma Absence_filter_deleted table s day :
  Absence_filter s day
    (filter (λ r, ¬ (student r.2 = s ∧ date (date_time r.2) = day)) table) = ∅.
Proof.
  unfold Absence_filter. apply map_empty. intros k.
  apply map_lookup_filter_None. right. intros a Ha Hm.
  apply map_lookup_filter_Some in Ha as [_ Hn]. by apply Hn.
Qed.

(** ... and every other row. *)
Lemma delete_keeps_others table s day :
  Absence_filter s day table = ∅ →
  filter (λ r, ¬ (student r.2 = s ∧ date (date_time r.2) = day)) table = table.
Proof.
  intros He. apply map_filter_id. intros k a Ha Hm.
  assert (Absence_filter s day table !! k = Some a) as Hk
    by (by apply map_lookup_filter_Some).
  by rewrite He in Hk.
Qed.

End absence_rows.

(** ** [mark_attendance] *)

Section mark_attendance_runs.
Import Instances.
Context `{PyStr}.
Implicit Types (clock : nat → Z) (db : DB) (request : HttpRequest) (sid pos : Z).
Implicit Types (student_id current_index decision : string).

(** The view, step by step: the two numbers are read from their texts,
    then the student is looked up, then the Absence store is touched. *)
Lemma mark_attendance_run clock request db :
  mark_attendance clock request db =
    if decide (method request = "POST") then
      match int_get_0 (POST_current_index request) with
      | Raise e => (Raise e, db, [])
      | Return pos =>
          match AutoField_get_prep_value (POST_student_id request) with
          | Raise e => (Raise e, db, [])
          | Return pk =>
              match pk ≫= λ k, (k,.) <$> students db !! k with
              | None => (Raise Http404, db, [])
              | Some st =>
                  let today := date (clock 0%nat) in
                  if decide (POST_action request = Some "absent") then
                    match qs_get (Absence_filter st.1 today (absences db)) with
                    | Return _ =>
                        (Return (Redirect (TakeAttendanceIndex (pos + 1))), db, [])
                    | Raise DoesNotExist =>
                        let row := {| student := st.1; date_time := clock 1%nat |} in
                        (Return (Redirect (TakeAttendanceIndex (pos + 1))),
                         {| students := students db;
                            absences := <[fresh_pk (absences db) := row]> (absences db) |},
                         [InsertAbsence (fresh_pk (absences db)) row])
                    | Raise e => (Raise e, db, [])
                    end
                  else
                    (Return (Redirect (TakeAttendanceIndex (pos + 1))),
                     {| students := students db;
                        absences :=
                          filter (λ r, ¬ (student r.2 = st.1
                                          ∧ date (date_time r.2) = today))
                                 (absences db) |},
                     [DeleteAbsence (Absence_filter st.1 today (absences db))])
              end
          end
      end
    else (Return (Redirect (Named "take_attendance")), db, []).
Proof.
  unfold mark_attendance.
  destruct (decide (method request = "POST")) as [_|_]; [|done].
  unfold mbind, M_bind, lift.
  destruct (int_get_0 _) as [pos|e]; [|done].
  unfold get_object_or_404, try_except, Student_get_id, Student_get_pk.
  unfold mbind, M_bind, lift, AutoField_get_prep_value.
  destruct (POST_student_id request) as [text|]; [|done].
  destruct (int text) as [k|e]; [|done]. cbn [mbind option_bind].
  destruct (students db !! k) as [s|]; [|done]. cbn [fmap option_fmap option_map app fst].
  destruct (decide (POST_action request = Some "absent")) as [_|_]; [|done].
  unfold mbind, M_bind, Absence_get_or_create.
  destruct (qs_get _) as [r|e]; [done|]. by destruct e.
Qed.

(** The [absent] branch, for a student of the roster. *)
Lemma mark_absent_run clock db student_id current_index sid pos :
  int student_id = Return sid →
  int current_index = Return pos →
  is_Some (students db !! sid) →
  mark_attendance clock (POST_mark student_id current_index "absent") db =
    match qs_get (Absence_filter sid (date (clock 0%nat)) (absences db)) with
    | Return _ => (Return (Redirect (TakeAttendanceIndex (pos + 1))), db, [])
    | Raise DoesNotExist =>
        let row := {| student := sid; date_time := clock 1%nat |} in
        (Return (Redirect (TakeAttendanceIndex (pos + 1))),
         {| students := students db;
            absences := <[fresh_pk (absences db) := row]> (absences db) |},
         [InsertAbsence (fresh_pk (absences db)) row])
    | Raise e => (Raise e, db, [])
    end.
Proof.
  intros Hsid Hpos [s Hs]. rewrite mark_attendance_run.
  cbn [POST_mark method POST_current_index POST_student_id POST_action
       int_get_0 AutoField_get_prep_value].
  destruct (decide ("POST" = "POST")) as [_|?]; [|done].
  rewrite Hpos, Hsid. cbn [mbind option_bind]. rewrite Hs.
  cbn [fmap option_fmap option_map fst].
  by destruct (decide (Some "absent" = Some "absent")).
Qed.

(** The other branch, for a student of the roster. *)
Lemma mark_other_run clock db student_id current_index sid pos decision :
  int student_id = Return sid →
  int current_index = Return pos →
  decision ≠ "absent" →
  is_Some (students db !! sid) →
  mark_attendance clock (POST_mark student_id current_index decision) db =
    (Return (Redirect (TakeAttendanceIndex (pos + 1))),
     {| students := students db;
        absences :=
          filter (λ r, ¬ (student r.2 = sid ∧ date (date_time r.2) = date (clock 0%nat)))
                 (absences db) |},
     [DeleteAbsence (Absence_filter sid (date (clock 0%nat)) (absences db))]).
Proof.
  intros Hsid Hpos Hd [s Hs]. rewrite mark_attendance_run.
  cbn [POST_mark method POST_current_index POST_student_id POST_action
       int_get_0 AutoField_get_prep_value].
  destruct (decide ("POST" = "POST")) as [_|?]; [|done].
  rewrite Hpos, Hsid. cbn [mbind option_bind]. rewrite Hs.
  cbn [fmap option_fmap option_map fst].
  destruct (decide (Some decision = Some "absent")) as [[=]|_]; done.
Qed.

Lemma mark_present_run clock db student_id current_index sid pos :
  int student_id = Return sid →
  int current_index = Return pos →
  is_Some (students db !! sid) →
  mark_attendance clock (POST_mark student_id current_index "present") db =
    (Return (Redirect (TakeAttendanceIndex (pos + 1))),
     {| students := students db;
        absences :=
          filter (λ r, ¬ (student r.2 = sid ∧ date (date_time r.2) = date (clock 0%nat)))
                 (absences db) |},
     [DeleteAbsence (Absence_filter sid (date (clock 0%nat)) (absences db))]).
Proof. intros Hsid Hpos. by apply mark_other_run. Qed.


(** Whatever the request, a call leaves the store and writes nothing, or
    it is a POST that names a student of the roster and inserts one row
    of that student or deletes that student's rows of the day. *)
Lemma mark_attendance_cases clock request db :
  let after := mark_attendance clock request db in
  let today := date (clock 0%nat) in
  (writes after = [] ∧ store after = db)
  ∨ ∃ sid, AutoField_get_prep_value (POST_student_id request) = Return (Some sid)
      ∧ is_Some (students db !! sid)
      ∧ students (store after) = students db
      ∧ ((Absence_filter sid today (absences db) = ∅
          ∧ absences (store after)
            = <[fresh_pk (absences db) := {| student := sid; date_time := clock 1%nat |}]>
                (absences db))
         ∨ absences (store after)
           = filter (λ r, ¬ (student r.2 = sid ∧ date (date_time r.2) = today))
                    (absences db)).
Proof.
  cbn zeta. rewrite mark_attendance_run.
  destruct (decide (method request = "POST")) as [_|_]; [|by left].
  destruct (int_get_0 _) as [pos|e]; [|by left].
  destruct (AutoField_get_prep_value _) as [[k|]|e]; [|by left..].
  cbn [mbind option_bind]. destruct (students db !! k) as [s|] eqn:Hs; [|by left].
  cbn [fmap option_fmap option_map fst].
  destruct (decide (POST_action request = Some "absent")) as [_|_].
  - pose proof (qs_get_cases (Absence_filter k (date (clock 0%nat)) (absences db))) as Hc.
    destruct (qs_get _) as [r|e]; [by left|]. destruct e; try by left.
    right. exists k. split; [done|]. split; [by eexists|]. split; [done|]. by left.
  - right. exists k. split; [done|]. split; [by eexists|]. split; [done|]. by right.
Qed.

End mark_attendance_runs.

Section mark_attendance_properties.
Import Instances.
Context `{PyStr}.
Implicit Types (clock : nat → Z) (db : DB) (sid pos day : Z).
Implicit Types (student_id current_index decision : string).

(** C1 (as amended). From a store that holds at most one Absence row for
    the student on the day, marking a student of the roster absent twice
    in a row, both calls on that day, leaves exactly one row for the
    student on the day; the second call writes nothing and leaves the
    store, time stamps included, as the first call left it. The form
    carries the student and the position as texts, which read as the
    numbers [sid] and [pos]. *)
Theorem mark_absent_twice clock1 clock2 db student_id current_index sid pos day :
  int student_id = Return sid →
  int current_index = Return pos →
  is_Some (students db !! sid) →
  (∀ n, date (clock1 n) = day) →
  (∀ n, date (clock2 n) = day) →
  (size (Absence_filter sid day (absences db)) ≤ 1)%nat →
  let first := mark_attendance clock1 (POST_mark student_id current_index "absent") db in
  let second :=
    mark_attendance clock2 (POST_mark student_id current_index "absent") (store first) in
  size (Absence_filter sid day (absences (store second))) = 1%nat
  ∧ store second = store first
  ∧ writes second = []
  ∧ result first = Return (Redirect (TakeAttendanceIndex (pos + 1)))
  ∧ result second = Return (Redirect (TakeAttendanceIndex (pos + 1))).
Proof.
  intros Hsid Hpos Hs Hc1 Hc2 Hsize first second. subst first second.
  rewrite (mark_absent_run clock1 db _ _ sid pos Hsid Hpos Hs), (Hc1 0%nat).
  destruct (size (Absence_filter sid day (absences db))) as [|[|n]] eqn:Hn; [| |lia].
  - rewrite (qs_get_size_0 _ Hn). cbn [store fst snd].
    apply map_size_empty_inv in Hn.
    set (db1 := {| students := _; absences := _ |}).
    assert (Absence_filter sid day (absences db1)
            = {[ fresh_pk (absences db) := {| student := sid; date_time := clock1 1%nat |} ]})
      as Hf.
    { subst db1. cbn [absences].
      rewrite Absence_filter_insert_today by apply Hc1. by rewrite Hn. }
    rewrite (mark_absent_run clock2 db1 _ _ sid pos Hsid Hpos) by done.
    rewrite (Hc2 0%nat), Hf, qs_get_singleton. cbn [store writes result fst snd].
    by rewrite Hf, map_size_singleton.
  - destruct (qs_get_size_1 _ Hn) as (r & Hr & _). rewrite Hr. cbn [store fst snd].
    rewrite (mark_absent_run clock2 db _ _ sid pos Hsid Hpos) by done.
    rewrite (Hc2 0%nat), Hr.
    cbn [store writes result fst snd]. by rewrite Hn.
Qed.

(** C2. For a student of the roster and from any store, marking absent
    and then present, both calls on one day, leaves no Absence row for the
    student on the day. The present branch removes exactly the rows of the
    student on the day, and leaves the store as it is when there is none. *)
Theorem mark_absent_then_present clock1 clock2 db student_id current_index sid pos day :
  int student_id = Return sid →
  int current_index = Return pos →
  is_Some (students db !! sid) →
  (∀ n, date (clock1 n) = day) →
  (∀ n, date (clock2 n) = day) →
  let first := mark_attendance clock1 (POST_mark student_id current_index "absent") db in
  let second :=
    mark_attendance clock2 (POST_mark student_id current_index "present") (store first) in
  let present := mark_attendance clock2 (POST_mark student_id current_index "present") db in
  size (Absence_filter sid day (absences (store second))) = 0%nat
  ∧ absences (store present)
    = filter (λ r, ¬ (student r.2 = sid ∧ date (date_time r.2) = day)) (absences db)
  ∧ (Absence_filter sid day (absences db) = ∅ → store present = db).
Proof.
  intros Hsid Hpos Hs Hc1 Hc2 first second present. subst first second present.
  assert (is_Some (students
    (store (mark_attendance clock1 (POST_mark student_id current_index "absent") db))
      !! sid)) as Hs1.
  { rewrite (mark_absent_run clock1 db _ _ sid pos Hsid Hpos) by done.
    destruct (qs_get _) as [r|e]; [done|]. by destruct e. }
  rewrite (mark_present_run clock2 _ _ _ sid pos Hsid Hpos Hs1).
  rewrite (mark_present_run clock2 db _ _ sid pos Hsid Hpos Hs).
  rewrite (Hc2 0%nat). cbn [store fst snd absences]. split; [|split].
  - by rewrite Absence_filter_deleted, map_size_empty.
  - done.
  - intros He. rewrite delete_keeps_others by done. by destruct db.
Qed.

(** C10. For a student of the roster and from any store, also one that
    holds several Absence rows for the student on the day, marking
    present leaves none of them: one [DELETE] removes them all, so at
    most one row per student and day holds again for the pair. *)
Theorem mark_present_deletes_all clock db student_id current_index sid pos :
  int student_id = Return sid →
  int current_index = Return pos →
  is_Some (students db !! sid) →
  let today := date (clock 0%nat) in
  let after := mark_attendance clock (POST_mark student_id current_index "present") db in
  size (Absence_filter sid today (absences (store after))) = 0%nat
  ∧ writes after = [DeleteAbsence (Absence_filter sid today (absences db))]
  ∧ result after = Return (Redirect (TakeAttendanceIndex (pos + 1))).
Proof.
  intros Hsid Hpos Hs today after. subst today after.
  rewrite (mark_present_run clock db _ _ sid pos Hsid Hpos Hs).
  cbn [store writes result fst snd absences].
  by rewrite Absence_filter_deleted, map_size_empty.
Qed.


(** X6. Marking keeps the invariant of the data model: from a store with at
    most one Absence row per student and day, a call of mark whose clock
    readings fall on one day leaves such a store, whatever the request. *)
Lemma mark_attendance_at_most_one clock request db :
  date (clock 1%nat) = date (clock 0%nat) →
  at_most_one_per_day (absences db) →
  at_most_one_per_day (absences (store (mark_attendance clock request db))).
Proof.
  intros Hday Hinv.
  destruct (mark_attendance_cases clock request db)
    as [[_ ->]|(sid & _ & _ & _ & [[Hnone ->]| ->])]; [done| |].
  - intros s' day.
    destruct (decide (s' = sid ∧ day = date (clock 0%nat))) as [[-> ->]|Hne].
    + rewrite Absence_filter_insert_today, Hnone by done.
      change (<[?k := ?x]> ∅) with ({[ k := x ]} : gmap Z Absence).
      by rewrite map_size_singleton.
    + unfold Absence_filter. rewrite map_filter_insert_not'; [apply Hinv| |].
      * cbn [snd student date_time]. rewrite Hday. intros [<- <-]. by apply Hne.
      * intros y Hy. by rewrite fresh_pk_unused in Hy.
  - intros s' day. etrans; [|apply (Hinv s' day)].
    apply map_subseteq_size, map_filter_subseteq_mono, map_filter_subseteq.
Qed.

End mark_attendance_properties.

Lemma mark_absent_twice_witness :
  @int Instances.ascii_str "1" = Return 1
  ∧ is_Some (students Scenarios.roster_AB !! 1)
  ∧ (size (Absence_filter 1 0 (absences Scenarios.roster_AB)) ≤ 1)%nat
  ∧ size (Absence_filter 1 0 (absences (store
           (@mark_attendance Instances.ascii_str Scenarios.noon
              (Instances.POST_mark "1" "0" "absent")
              (store (@mark_attendance Instances.ascii_str Scenarios.noon
                        (Instances.POST_mark "1" "0" "absent") Scenarios.roster_AB))))))
    = 1%nat.
Proof.
  assert (is_Some (students Scenarios.roster_AB !! 1)) as Hs by (by eexists).
  assert (size (Absence_filter 1 0 (absences Scenarios.roster_AB)) ≤ 1)%nat as Hn
    by (vm_compute; lia).
  split; [reflexivity|]. split; [exact Hs|]. split; [exact Hn|].
  exact (proj1 (@mark_absent_twice Instances.ascii_str Scenarios.noon Scenarios.noon
                  Scenarios.roster_AB "1" "0" 1 0 0 eq_refl eq_refl Hs
                  (λ _, eq_refl) (λ _, eq_refl) Hn)).
Defined.

(** C1 as stated fails on a store with two rows for the student on the
    day: both calls raise [MultipleObjectsReturned] and the two rows stay. *)
Lemma mark_absent_twice_two_rows :
  is_Some (students Scenarios.A_absent_twice !! 1)
  ∧ result (@mark_attendance Instances.ascii_str Scenarios.noon
              (Instances.POST_mark "1" "0" "absent")
              (store (@mark_attendance Instances.ascii_str Scenarios.noon
                        (Instances.POST_mark "1" "0" "absent") Scenarios.A_absent_twice)))
    = Raise MultipleObjectsReturned
  ∧ size (Absence_filter 1 (date (Scenarios.noon 0%nat)) (absences (store
            (@mark_attendance Instances.ascii_str Scenarios.noon
               (Instances.POST_mark "1" "0" "absent")
               (store (@mark_attendance Instances.ascii_str Scenarios.noon
                         (Instances.POST_mark "1" "0" "absent")
                         Scenarios.A_absent_twice))))))
    ≠ 1%nat.
Proof. split; [by eexists|]. split; by vm_compute. Qed.

Lemma mark_absent_then_present_witness :
  @int Instances.ascii_str "1" = Return 1
  ∧ is_Some (students Scenarios.A_absent_twice !! 1)
  ∧ size (Absence_filter 1 0 (absences (store
           (@mark_attendance Instances.ascii_str Scenarios.noon
              (Instances.POST_mark "1" "0" "present")
              (store (@mark_attendance Instances.ascii_str Scenarios.noon
                        (Instances.POST_mark "1" "0" "absent")
                        Scenarios.A_absent_twice))))))
    = 0%nat.
Proof.
  assert (is_Some (students Scenarios.A_absent_twice !! 1)) as Hs by (by eexists).
  split; [reflexivity|]. split; [exact Hs|].
  exact (proj1 (@mark_absent_then_present Instances.ascii_str Scenarios.noon
                  Scenarios.noon Scenarios.A_absent_twice "1" "0" 1 0 0
                  eq_refl eq_refl Hs (λ _, eq_refl) (λ _, eq_refl))).
Defined.

Lemma mark_present_deletes_all_witness :
  @int Instances.ascii_str "1" = Return 1
  ∧ is_Some (students Scenarios.A_absent_twice !! 1)
  ∧ size (Absence_filter 1 0 (absences Scenarios.A_absent_twice)) = 2%nat
  ∧ size (Absence_filter 1 0 (absences (store
           (@mark_attendance Instances.ascii_str Scenarios.noon
              (Instances.POST_mark "1" "0" "present") Scenarios.A_absent_twice))))
    = 0%nat.
Proof.
  assert (is_Some (students Scenarios.A_absent_twice !! 1)) as Hs by (by eexists).
  split; [reflexivity|]. split; [exact Hs|]. split; [by vm_compute|].
  exact (proj1 (@mark_present_deletes_all Instances.ascii_str Scenarios.noon
                  Scenarios.A_absent_twice "1" "0" 1 0 eq_refl eq_refl Hs)).
Defined.



(** ** [print_absentees] *)

Section print_absentees_properties.
Import Instances Scenarios.
Context `{PyFloat}.
Implicit Types (clock : nat → Z) (db : DB) (request : HttpRequest).

(** The view always renders: the division is evaluated only under
    [total_students > 0]. *)
Lemma print_absentees_run clock request db :
  let today := date (clock 0%nat) in
  let total_students := Z.of_nat (size (students db)) in
  let total_absent := Z.of_nat (size (Absence_filter_date today (absences db))) in
  print_absentees clock request db =
    (Return (Render "attendance/print_absentees.html"
       {| PrintAbsentees.absent_students := Absence_filter_date today (absences db);
          PrintAbsentees.date := today;
          PrintAbsentees.total_absent := total_absent;
          PrintAbsentees.total_present := total_students - total_absent;
          PrintAbsentees.attendance_percentage :=
            if decide (total_students = 0) then Int 0
            else Float (float_round
                          (float_mul_int
                             (int_truediv (total_students - total_absent) total_students)
                             100) 2) |}),
     db, []).
Proof.
  intros today total_students total_absent.
  unfold print_absentees, Student_count, query, lift, truediv, qs_count.
  unfold mbind, M_bind, mret, M_ret. fold today. fold total_students. fold total_absent.
  destruct (decide (total_students > 0)) as [Hpos|Hnpos].
  - destruct (decide (total_students = 0)) as [Hz|_]; [lia|]. done.
  - destruct (decide (total_students = 0)) as [_|Hnz]; [done|].
    subst total_students. lia.
Qed.

(** C5. Whatever the store and the day, the report's [total_present] and
    [total_absent] add up to the size of the roster: [total_absent] counts
    the Absence rows of the day and [total_present] is the roster size
    less that count. *)
Theorem report_totals clock request db :
  ∃ ctx,
    result (print_absentees clock request db)
    = Return (Render "attendance/print_absentees.html" ctx)
    ∧ PrintAbsentees.total_absent ctx
      = Z.of_nat (size (Absence_filter_date (date (clock 0%nat)) (absences db)))
    ∧ PrintAbsentees.total_present ctx
      = Z.of_nat (size (students db)) - PrintAbsentees.total_absent ctx
    ∧ PrintAbsentees.total_present ctx + PrintAbsentees.total_absent ctx
      = Z.of_nat (size (students db)).
Proof.
  rewrite print_absentees_run. eexists. split; [done|].
  cbn [PrintAbsentees.total_absent PrintAbsentees.total_present]. lia.
Qed.

(** C6. The report always renders, no [ZeroDivisionError] on an empty
    roster: its [attendance_percentage] is 0 when the roster is empty and
    [round(total_present / total_students * 100, 2)] otherwise. *)
Theorem report_percentage clock request db :
  ∃ ctx,
    result (print_absentees clock request db)
    = Return (Render "attendance/print_absentees.html" ctx)
    ∧ PrintAbsentees.attendance_percentage ctx
      = if decide (Z.of_nat (size (students db)) = 0) then Int 0
        else round
               (Float (float_mul_int
                         (int_truediv (PrintAbsentees.total_present ctx)
                                      (Z.of_nat (size (students db))))
                         100)) 2.
Proof. rewrite print_absentees_run. eexists. split; done. Qed.

End print_absentees_properties.

(** The scenario of the roster [A, B] with [A] absent: one absent, one
    present, 50.0 percent. *)
Example report_A_absent :
  result (@print_absentees Instances.binary64 Scenarios.noon
            (Instances.GET_request None None) Scenarios.A_absent)
  = Return (Render "attendance/print_absentees.html"
      {| PrintAbsentees.absent_students := absences Scenarios.A_absent;
         PrintAbsentees.date := 0;
         PrintAbsentees.total_absent := 1;
         PrintAbsentees.total_present := 1;
         PrintAbsentees.attendance_percentage :=
           @Float (@pyfloat Instances.binary64) (Instances.b64 50) |}).
Proof. reflexivity. Qed.

(** ** [absentees_list] *)

Section absentees_list_properties.
Import Instances Scenarios.
Implicit Types (clock : nat → Z) (db : DB).

(** C3, on the code. Any non-empty [date] that [strptime] rejects sends
    the view through its [except ValueError] branch, which leaves
    [filter_date] unbound: building the context raises
    [UnboundLocalError] where the claim has an empty listing. *)
Theorem absentees_list_malformed `{Datetime} clock db (index : option string) (s : string) :
  s ≠ "" →
  strptime_Ymd s = None →
  absentees_list clock (GET_request index (Some s)) db
  = (Raise (UnboundLocalError "filter_date"), db, []).
Proof.
  intros Hne Hbad. unfold absentees_list. cbn [GET_date GET_request].
  destruct s as [|a r]; [done|]. by rewrite Hbad.
Qed.

Lemma absentees_list_malformed_witness :
  "not-a-date" ≠ ""
  ∧ @strptime_Ymd ascii_datetime "not-a-date" = None
  ∧ @absentees_list ascii_datetime noon (GET_request None (Some "not-a-date")) A_absent
    = (Raise (UnboundLocalError "filter_date"), A_absent, []).
Proof.
  assert ("not-a-date" ≠ "") as Hne by done.
  split; [exact Hne|]. split; [reflexivity|].
  exact (@absentees_list_malformed ascii_datetime noon A_absent None "not-a-date"
           Hne eq_refl).
Defined.

(** A date that parses, or none at all, lists the rows of the day. *)
Lemma absentees_list_dated `{Datetime} clock db (index : option string) (s : string) day :
  s ≠ "" →
  strptime_Ymd s = Some day →
  result (absentees_list clock (GET_request index (Some s)) db)
  = Return (Render "attendance/absentees_list.html"
      {| AbsenteesList.absent_students := Absence_filter_date day (absences db);
         AbsenteesList.filter_date := day;
         AbsenteesList.total_absent :=
           Z.of_nat (size (Absence_filter_date day (absences db))) |}).
Proof.
  intros Hne Hok. unfold absentees_list. cbn [GET_date GET_request].
  destruct s as [|a r]; [done|]. by rewrite Hok.
Qed.

End absentees_list_properties.

(** ** [take_attendance] *)

Section take_attendance_properties.
Import Instances Scenarios.
Context `{Backend, PyFloat, PyStr}.
Implicit Types (clock : nat → Z) (db : DB) (position : Z) (index : string).

Global Instance roll_le_total : Total roll_le.
Proof. intros x y. unfold roll_le. apply (total collate_le). Qed.

Lemma order_by_roll_number_sorted (table : gmap Z Student) :
  Sorted roll_le (Student_order_by_roll_number table).
Proof. apply (Sorted_merge_sort roll_le). Qed.

Lemma order_by_roll_number_perm (table : gmap Z Student) :
  Student_order_by_roll_number table ≡ₚ map_to_list table.
Proof. apply merge_sort_Permutation. Qed.

Lemma order_by_roll_number_length (table : gmap Z Student) :
  length (Student_order_by_roll_number table) = size table.
Proof. by rewrite order_by_roll_number_perm, length_map_to_list. Qed.

Lemma qs_exists_row (s day : Z) (table : gmap Z Absence) :
  qs_exists (Absence_filter s day table) = true
  ↔ ∃ k a, table !! k = Some a ∧ student a = s ∧ date (date_time a) = day.
Proof.
  unfold qs_exists. rewrite bool_decide_eq_true. split.
  - intros (k & a & Ha)%map_choose.
    apply map_lookup_filter_Some in Ha as [Ha [? ?]]. by exists k, a.
  - intros (k & a & Ha & Hs & Hd) He.
    assert (Absence_filter s day table !! k = Some a) as Hk
      by (by apply map_lookup_filter_Some).
    by rewrite He in Hk.
Qed.

(** The view, for a position given in the query string. *)
Lemma take_attendance_run clock db index position :
  int index = Return position →
  result (take_attendance clock (GET_request (Some index) None) db) =
    if decide (Z.of_nat (size (students db)) ≤ position) then
      Return (Redirect (Named "attendance_complete"))
    else
      match qs_getitem (Student_order_by_roll_number (students db)) position with
      | Return cur =>
          Return (Render "attendance/take_attendance.html"
            {| TakeAttendance.current_student := cur;
               TakeAttendance.current_index := position;
               TakeAttendance.total_students := Z.of_nat (size (students db));
               TakeAttendance.progress :=
                 float_mul_int
                   (int_truediv (position + 1) (Z.of_nat (size (students db)))) 100;
               TakeAttendance.is_absent_today :=
                 qs_exists (Absence_filter cur.1 (date (clock 0%nat)) (absences db)) |})
      | Raise e => Raise e
      end.
Proof.
  intros Hindex. unfold take_attendance, query, lift.
  unfold mbind, M_bind, mret, M_ret.
  cbn [GET_index GET_request int_get_0]. rewrite Hindex.
  rewrite order_by_roll_number_length.
  destruct (decide (Z.of_nat (size (students db)) ≤ position)) as [Hge|Hlt]; [done|].
  destruct (qs_getitem _ position) as [cur|e] eqn:Hcur; [|done].
  unfold truediv.
  destruct (decide (Z.of_nat (size (students db)) = 0)) as [Hz|_]; [|done].
  exfalso. unfold qs_getitem in Hcur.
  destruct (decide (position < 0)); [done|lia].
Qed.

(** C4 (as amended). For every roster and every position from 0 on: at
    or past the size of the roster the view redirects to the completion
    report; below it, the view renders the student at that place of the
    roster in ascending roll-number order, with a flag that is true
    exactly when the store holds an Absence row of that student dated
    today. The query string carries the position as a text, which reads
    as the number [position]. *)
Theorem take_attendance_current clock db index position :
  int index = Return position →
  0 ≤ position →
  if decide (Z.of_nat (size (students db)) ≤ position) then
    result (take_attendance clock (GET_request (Some index) None) db)
    = Return (Redirect (Named "attendance_complete"))
  else
    ∃ ordered ctx,
      ordered ≡ₚ map_to_list (students db)
      ∧ Sorted roll_le ordered
      ∧ ordered !! Z.to_nat position = Some (TakeAttendance.current_student ctx)
      ∧ result (take_attendance clock (GET_request (Some index) None) db)
        = Return (Render "attendance/take_attendance.html" ctx)
      ∧ (TakeAttendance.is_absent_today ctx = true
         ↔ ∃ k a, absences db !! k = Some a
                  ∧ student a = (TakeAttendance.current_student ctx).1
                  ∧ date (date_time a) = date (clock 0%nat)).
Proof.
  intros Hindex Hpos. rewrite (take_attendance_run clock db index position Hindex).
  destruct (decide (Z.of_nat (size (students db)) ≤ position)) as [Hge|Hlt]; [done|].
  unfold qs_getitem.
  destruct (decide (position < 0)) as [?|_]; [lia|].
  destruct (Student_order_by_roll_number (students db) !! Z.to_nat position)
    as [cur|] eqn:Hcur.
  2: { apply lookup_ge_None in Hcur. rewrite order_by_roll_number_length in Hcur. lia. }
  eexists (Student_order_by_roll_number (students db)), _.
  split; [apply order_by_roll_number_perm|].
  split; [apply order_by_roll_number_sorted|].
  split; [|split; [reflexivity|]].
  - exact Hcur.
  - cbn [TakeAttendance.is_absent_today TakeAttendance.current_student].
    apply qs_exists_row.
Qed.

(** Below zero the index is refused by the queryset. *)
Lemma take_attendance_negative clock db index position :
  int index = Return position →
  position < 0 →
  students db ≠ ∅ →
  result (take_attendance clock (GET_request (Some index) None) db)
  = Raise (ValueError "Negative indexing is not supported.").
Proof.
  intros Hindex Hneg Hne. rewrite (take_attendance_run clock db index position Hindex).
  destruct (decide (Z.of_nat (size (students db)) ≤ position)) as [?|_]; [lia|].
  unfold qs_getitem. by destruct (decide (position < 0)).
Qed.

End take_attendance_properties.

Lemma take_attendance_current_witness :
  @int Instances.ascii_str "1" = Return 1
  ∧ 0 ≤ 1
  ∧ ∃ ordered ctx,
      ordered ≡ₚ map_to_list (students Scenarios.A_absent)
      ∧ Sorted (@roll_le (Instances.binary_backend true)) ordered
      ∧ ordered !! Z.to_nat 1 = Some (@TakeAttendance.current_student Instances.binary64 ctx)
      ∧ result (@take_attendance (Instances.binary_backend true) Instances.binary64
                  Instances.ascii_str Scenarios.noon
                  (Instances.GET_request (Some "1") None) Scenarios.A_absent)
        = Return (Render "attendance/take_attendance.html" ctx)
      ∧ (TakeAttendance.is_absent_today ctx = true
         ↔ ∃ k a, absences Scenarios.A_absent !! k = Some a
                  ∧ student a = (TakeAttendance.current_student ctx).1
                  ∧ date (date_time a) = date (Scenarios.noon 0%nat)).
Proof.
  assert (0 ≤ 1) as H1 by lia.
  split; [reflexivity|]. split; [exact H1|].
  exact (@take_attendance_current (Instances.binary_backend true) Instances.binary64
           Instances.ascii_str Scenarios.noon Scenarios.A_absent "1" 1 eq_refl H1).
Defined.

(** C4 as stated fails at a position below zero, which is below the size
    of the roster: no student is returned, the view raises. *)
Lemma take_attendance_minus_one :
  @int Instances.ascii_str "-1" = Return (-1)
  ∧ -1 < Z.of_nat (size (students Scenarios.A_absent))
  ∧ result (@take_attendance (Instances.binary_backend true) Instances.binary64
              Instances.ascii_str Scenarios.noon
              (Instances.GET_request (Some "-1") None) Scenarios.A_absent)
    = Raise (ValueError "Negative indexing is not supported.").
Proof. split; [reflexivity|]. split; [by vm_compute|reflexivity]. Qed.

(** ** [import_students] *)

Section roster_rolls.
Implicit Types (table : gmap Z Student) (roll : string) (db : DB).

Lemma filter_roll_empty_iff table roll :
  Student_filter_roll roll table = ∅ ↔ roll ∉ roster_rolls table.
Proof.
  unfold roster_rolls. rewrite elem_of_map_to_set. split.
  - intros He (k & s & Hs & Hr).
    assert (Student_filter_roll roll table !! k = Some s) as Hk
      by (by apply map_lookup_filter_Some).
    by rewrite He in Hk.
  - intros Hn. apply map_empty. intros k. apply map_lookup_filter_None.
    right. intros s Hs Hr. apply Hn. by exists k, s.
Qed.

Lemma filter_roll_insert_same table pk row roll :
  roll_number row = roll →
  Student_filter_roll roll (<[pk := row]> table)
  = <[pk := row]> (Student_filter_roll roll table).
Proof. intros Hr. unfold Student_filter_roll. by rewrite map_filter_insert_True. Qed.

Lemma filter_roll_insert_other table pk row roll :
  table !! pk = None → roll ≠ roll_number row →
  Student_filter_roll roll (<[pk := row]> table) = Student_filter_roll roll table.
Proof.
  intros Hpk Hne. unfold Student_filter_roll.
  rewrite map_filter_insert_not'; [done|by cbn; congruence|].
  intros y Hy. by rewrite Hpk in Hy.
Qed.

Lemma roster_rolls_insert table pk row :
  table !! pk = None →
  roster_rolls (<[pk := row]> table) = {[ roll_number row ]} ∪ roster_rolls table.
Proof. intros Hpk. unfold roster_rolls. by rewrite map_to_set_insert_L. Qed.

Lemma extends_refl db : extends db db.
Proof. by repeat split. Qed.

Lemma extends_trans db1 db2 db3 : extends db1 db2 → extends db2 db3 → extends db1 db3.
Proof.
  intros (Ha & Hs & Hr) (Ha' & Hs' & Hr'). split; [congruence|].
  split; [by etrans|]. intros roll Hne.
  rewrite <- (Hr roll Hne). apply Hr'. by rewrite (Hr roll Hne).
Qed.

(** Inserting, under a fresh key, a student whose roll number the roster
    does not hold. *)
Lemma extends_insert db row :
  Student_filter_roll (roll_number row) (students db) = ∅ →
  extends db {| students := <[fresh_pk (students db) := row]> (students db);
                absences := absences db |}.
Proof.
  intros He. split; [done|]. cbn [students]. split.
  - apply insert_subseteq, fresh_pk_unused.
  - intros roll Hne. apply filter_roll_insert_other; [apply fresh_pk_unused|].
    intros ->. by apply Hne.
Qed.

End roster_rolls.

Section roll_sets.
Implicit Types (x : string) (X R : gset string).

Lemma difference_known x X R : x ∈ R → ({[x]} ∪ X) ∖ R = X ∖ R.
Proof.
  intros Hx. apply set_eq. intros y.
  rewrite !elem_of_difference, elem_of_union, elem_of_singleton.
  split; [intros [[->|Hy] Hn]; [done|by split]|intros [Hy Hn]; by split; [right|]].
Qed.

Lemma difference_new x X R :
  x ∉ R → ({[x]} ∪ X) ∖ R = {[x]} ∪ X ∖ ({[x]} ∪ R).
Proof.
  intros Hx. apply set_eq. intros y.
  rewrite elem_of_union, !elem_of_difference, !elem_of_union, !elem_of_singleton.
  split.
  - intros [[->|Hy] Hn]; [by left|].
    destruct (decide (y = x)) as [->|Hne]; [by left|].
    right. split; [done|]. by intros [?|?].
  - intros [->|[Hy Hn]]; [split; [by left|done]|].
    split; [by right|]. intros ?. apply Hn. by right.
Qed.

Lemma size_difference_new x X R :
  x ∉ R → size (({[x]} ∪ X) ∖ R) = S (size (X ∖ ({[x]} ∪ R))).
Proof.
  intros Hx. rewrite difference_new by done.
  rewrite size_union, size_singleton; [done|].
  intros y. rewrite elem_of_singleton, elem_of_difference, elem_of_union, elem_of_singleton.
  intros -> [_ Hn]. apply Hn. by left.
Qed.

End roll_sets.

Section import_rows_properties.
Context `{Backend}.
Implicit Types (clock : nat → Z) (db : DB) (rs : list (gmap string string)).

Lemma Student_get_or_create_run roll sname cname now db :
  Student_get_or_create roll sname cname now db =
    match qs_get (Student_filter_roll roll (students db)) with
    | Return r => (Return (r, false), db, [])
    | Raise DoesNotExist =>
        let row := {| student_name := sname; roll_number := roll;
                      course_name := cname; created_at := now |} in
        if enforces_max_length && exceeds_max_length row
        then (Raise DataError, db, [])
        else (Return ((fresh_pk (students db), row), true),
              {| students := <[fresh_pk (students db) := row]> (students db);
                 absences := absences db |},
              [InsertStudent (fresh_pk (students db)) row])
    | Raise e => (Raise e, db, [])
    end.
Proof.
  unfold Student_get_or_create.
  destruct (qs_get _) as [r|e]; [done|]. destruct e; try done.
  unfold mbind, M_bind, Student_create. cbn zeta.
  by destruct (enforces_max_length && _).
Qed.

Lemma settled_extends roll db db' : settled roll db → extends db db' → settled roll db'.
Proof.
  intros [r Hr] (_ & _ & Hx). exists r. rewrite Hx; [done|].
  intros He. rewrite He, qs_get_empty in Hr. done.
Qed.

Lemma settled_get_or_create roll sname cname now db :
  settled roll db →
  ∃ r, Student_get_or_create roll sname cname now db = (Return (r, false), db, []).
Proof. intros [r Hr]. exists r. by rewrite Student_get_or_create_run, Hr. Qed.

(** One [get_or_create]: the store is extended, and when the call
    returns the roll number is settled. *)
Lemma Student_get_or_create_step roll sname cname now db :
  let r := Student_get_or_create roll sname cname now db in
  extends db (store r)
  ∧ match result r with
    | Return (_, created) =>
        settled roll (store r)
        ∧ (if created
           then (roll ∉ roster_rolls (students db))
                ∧ (roster_rolls (students (store r))
                   = {[ roll ]} ∪ roster_rolls (students db))
           else (roll ∈ roster_rolls (students db)) ∧ (store r = db))
    | Raise _ => store r = db ∧ writes r = []
    end.
Proof.
  cbn zeta. rewrite Student_get_or_create_run.
  pose proof (qs_get_cases (Student_filter_roll roll (students db))) as Hc.
  destruct (qs_get _) as [r|e] eqn:Hget.
  - cbn [store result fst snd]. split; [apply extends_refl|].
    split; [by exists r|]. split; [|done].
    destruct (decide (roll ∈ roster_rolls (students db))) as [|Hn]; [done|].
    apply filter_roll_empty_iff in Hn. rewrite Hn in Hc.
    exfalso. eapply (insert_non_empty (M := gmap Z)). symmetry. exact Hc.
  - destruct e; cbn [store result writes fst snd];
      try (split; [apply extends_refl|done]).
    cbn zeta. destruct (enforces_max_length && _);
      cbn [store result writes fst snd]; [split; [apply extends_refl|done]|].
    split; [by apply extends_insert|]. split; [|split].
    + eexists. cbn [students]. rewrite filter_roll_insert_same by done.
      rewrite Hc.
      change (<[?k := ?x]> ∅) with ({[ k := x ]} : gmap Z Student).
      apply qs_get_singleton.
    + by apply filter_roll_empty_iff.
    + cbn [students]. rewrite roster_rolls_insert by apply fresh_pk_unused. done.
Qed.

(** Whether and how [get_or_create] raises does not depend on the clock. *)
Lemma Student_get_or_create_raise roll sname cname now now' db e db1 w1 :
  Student_get_or_create roll sname cname now db = (Raise e, db1, w1) →
  Student_get_or_create roll sname cname now' db = (Raise e, db, []).
Proof.
  rewrite !Student_get_or_create_run.
  destruct (qs_get _) as [r|e']; [done|].
  destruct e'; try by intros [= <- _ _].
  cbn zeta. unfold exceeds_max_length. cbn [roll_number student_name course_name].
  destruct (enforces_max_length && _); [|done]. by intros [= <- _ _].
Qed.

Lemma import_rows_cons clock row rest n db :
  import_rows clock (row :: rest) n db =
    match row !! "Roll Number", row !! "Student Name", row !! "Course Name" with
    | Some roll, Some sname, Some cname =>
        match Student_get_or_create (strip roll) (strip sname) (strip cname)
                (clock (Z.to_nat n)) db with
        | (Return (_, created), db1, w1) =>
            match import_rows clock rest (if created : bool then n + 1 else n) db1 with
            | (r, db2, w2) => (r, db2, w1 ++ w2)
            end
        | (Raise e, db1, w1) => (Raise e, db1, w1)
        end
    | None, _, _ => (Raise (KeyError "Roll Number"), db, [])
    | Some _, None, _ => (Raise (KeyError "Student Name"), db, [])
    | Some _, Some _, None => (Raise (KeyError "Course Name"), db, [])
    end.
Proof.
  cbn [import_rows]. unfold mbind, M_bind, lift, getitem.
  destruct (row !! "Roll Number") as [roll|]; [|done].
  destruct (row !! "Student Name") as [sname|]; [|done].
  destruct (row !! "Course Name") as [cname|]; [|done].
  cbn [app].
  destruct (Student_get_or_create _ _ _ _ db) as [[[[r created]|e] db1] w1]; [|done].
  by destruct (import_rows _ _ _ db1) as [[r2 db2] w2].
Qed.

(** The loop only ever extends the store. *)
Lemma import_rows_extends rs clock n db :
  extends db (store (import_rows clock rs n db)).
Proof.
  revert n db. induction rs as [|row rest IH]; intros n db.
  { apply extends_refl. }
  rewrite import_rows_cons.
  destruct (row !! "Roll Number") as [roll|]; [|apply extends_refl].
  destruct (row !! "Student Name") as [sname|]; [|apply extends_refl].
  destruct (row !! "Course Name") as [cname|]; [|apply extends_refl].
  pose proof (Student_get_or_create_step (strip roll) (strip sname) (strip cname)
                (clock (Z.to_nat n)) db) as [Hx _].
  destruct (Student_get_or_create _ _ _ _ db) as [[[[r created]|e] db1] w1];
    cbn [store fst snd] in *; [|done].
  specialize (IH (if created then n + 1 else n) db1).
  destruct (import_rows _ _ _ db1) as [[r2 db2] w2]. cbn [store fst snd] in *.
  by eapply extends_trans.
Qed.

(** Running the loop again on the store it left: nothing is written, the
    store stays, the count does not move, and a run that raised raises
    the same again. *)
Lemma import_rows_again rs clock clock' n n' db :
  import_rows clock' rs n' (store (import_rows clock rs n db))
  = (match result (import_rows clock rs n db) with
     | Return _ => Return n'
     | Raise e => Raise e
     end,
     store (import_rows clock rs n db), []).
Proof.
  revert n n' db. induction rs as [|row rest IH]; intros n n' db; [done|].
  rewrite (import_rows_cons clock row rest n db).
  destruct (row !! "Roll Number") as [roll|] eqn:Hroll.
  2: { cbn [store result fst snd]. by rewrite import_rows_cons, Hroll. }
  destruct (row !! "Student Name") as [sname|] eqn:Hsname.
  2: { cbn [store result fst snd]. by rewrite import_rows_cons, Hroll, Hsname. }
  destruct (row !! "Course Name") as [cname|] eqn:Hcname.
  2: { cbn [store result fst snd]. by rewrite import_rows_cons, Hroll, Hsname, Hcname. }
  pose proof (Student_get_or_create_step (strip roll) (strip sname) (strip cname)
                (clock (Z.to_nat n)) db) as [_ Hstep].
  cbn zeta in Hstep.
  destruct (Student_get_or_create _ _ _ _ db) as [[[[r created]|e] db1] w1] eqn:Hgoc;
    cbn [store result writes fst snd] in *.
  - destruct Hstep as [Hsettled _].
    specialize (IH (if created then n + 1 else n) n' db1).
    pose proof (import_rows_extends rest clock (if created then n + 1 else n) db1) as Hx.
    destruct (import_rows clock rest _ db1) as [[r2 db2] w2].
    cbn [store result fst snd] in *.
    rewrite import_rows_cons, Hroll, Hsname, Hcname.
    destruct (settled_get_or_create (strip roll) (strip sname) (strip cname)
                (clock' (Z.to_nat n')) db2 (settled_extends _ _ _ Hsettled Hx))
      as [r' ->].
    by rewrite IH.
  - destruct Hstep as [-> _].
    rewrite import_rows_cons, Hroll, Hsname, Hcname.
    by rewrite (Student_get_or_create_raise _ _ _ _ (clock' (Z.to_nat n')) _ _ _ _ Hgoc).
Qed.

(** When the loop returns, it has counted the distinct roll numbers of
    the rows that the roster did not hold. *)
Lemma import_rows_count rs clock n m db :
  result (import_rows clock rs n db) = Return m →
  m = n + Z.of_nat (size (list_to_set (row_rolls rs) ∖ roster_rolls (students db))).
Proof.
  revert n db. induction rs as [|row rest IH]; intros n db.
  { cbn. intros [= <-]. rewrite empty_difference_L, size_empty. lia. }
  rewrite import_rows_cons. cbn [row_rolls fmap list_fmap list_to_set foldr].
  fold (row_rolls rest).
  destruct (row !! "Roll Number") as [roll|]; [|done].
  destruct (row !! "Student Name") as [sname|]; [|done].
  destruct (row !! "Course Name") as [cname|]; [|done].
  pose proof (Student_get_or_create_step (strip roll) (strip sname) (strip cname)
                (clock (Z.to_nat n)) db) as [_ Hstep].
  cbn zeta in Hstep.
  destruct (Student_get_or_create _ _ _ _ db) as [[[[r created]|e] db1] w1];
    cbn [store result writes fst snd] in *; [|done].
  specialize (IH (if created then n + 1 else n) db1).
  destruct (import_rows clock rest _ db1) as [[r2 db2] w2].
  cbn [store result fst snd] in *. intros Hm. specialize (IH Hm).
  cbn [default]. change (id roll) with roll.
  destruct Hstep as [_ Hstep]. destruct created.
  - destruct Hstep as [Hnew Hrolls]. rewrite Hrolls in IH. rewrite IH.
    rewrite size_difference_new by done. lia.
  - destruct Hstep as [Hold ->]. rewrite IH.
    by rewrite difference_known by done.
Qed.

End import_rows_properties.

Section import_students_properties.
Import Instances Scenarios.
Context `{Backend, Pandas}.
Implicit Types (clock : nat → Z) (db : DB) (file : UploadedFile) (df : DataFrame).

Lemma read_upload_name file parsed : read_upload file = Some parsed → name file ≠ "".
Proof. unfold read_upload. intros Hr Hn. rewrite Hn in Hr. by vm_compute in Hr. Qed.

(** The view on an upload with a file name, by what the reader gives. *)
Lemma import_students_upload clock file db :
  name file ≠ "" →
  import_students clock (POST_upload file) db =
    match read_upload file with
    | None =>
        (Return (Redirect (Named "import_students"),
                 [MsgError "Unsupported file format. Please use .xlsx, .xls, or .csv files"]),
         db, [])
    | Some (Raise e) =>
        (Return (Redirect (Named "import_students"), [MsgErrorImporting e]), db, [])
    | Some (Return df) =>
        if bool_decide (Forall (λ col, col ∈ columns df) required_columns) then
          match import_rows clock (rows df) 0 db with
          | (Return n, db', w) =>
              (Return (Redirect (Named "attendance_list"), [MsgSuccessImported n]), db', w)
          | (Raise e, db', w) =>
              (Return (Redirect (Named "import_students"), [MsgErrorImporting e]), db', w)
          end
        else
          (Return (Redirect (Named "import_students"),
                   [MsgError "Excel file must contain columns: Student Name, Roll Number, Course Name"]),
           db, [])
    end.
Proof.
  intros Hname. unfold import_students. cbn [method FILES_excel_file POST_upload].
  destruct (decide ("POST" = "POST")) as [_|?]; [|done].
  destruct (decide (name file = "")) as [?|_]; [done|].
  unfold try_except. destruct (read_upload file) as [[df|e]|]; [| done..].
  unfold mbind, M_bind, lift, import_dataframe.
  destruct (bool_decide _); [|done].
  unfold mbind, M_bind, mret, M_ret.
  destruct (import_rows clock (rows df) 0 db) as [[[n|e] db'] w]; cbn [app];
    by rewrite !app_nil_r.
Qed.

(** Importing the same upload again, whatever the first import did:
    nothing is written and the store stays as the first import left it. *)
Lemma import_students_again clock1 clock2 file db :
  let first := import_students clock1 (POST_upload file) db in
  let second := import_students clock2 (POST_upload file) (store first) in
  store second = store first ∧ writes second = [].
Proof.
  cbn zeta. destruct (decide (name file = "")) as [Hn|Hn].
  { unfold import_students. cbn [method FILES_excel_file POST_upload].
    destruct (decide ("POST" = "POST")) as [_|?]; [|done].
    by destruct (decide (name file = "")). }
  rewrite (import_students_upload clock1 file db Hn).
  destruct (read_upload file) as [[df|e]|] eqn:Hread; cbn [store writes fst snd].
  - destruct (bool_decide (Forall (λ col, col ∈ columns df) required_columns)) eqn:Hcols.
    + pose proof (import_rows_again (rows df) clock1 clock2 0 0 db) as Hagain.
      destruct (import_rows clock1 (rows df) 0 db) as [[[n|e] db'] w];
        cbn [store result writes fst snd] in *;
        by rewrite import_students_upload, Hread, Hcols, Hagain.
    + cbn [store fst snd]. by rewrite import_students_upload, Hread, Hcols.
  - by rewrite import_students_upload, Hread.
  - by rewrite import_students_upload, Hread.
Qed.

(** No import changes or drops a student the roster holds. *)
Lemma import_students_preserves clock request db :
  students db ⊆ students (store (import_students clock request db)).
Proof.
  unfold import_students.
  destruct (if decide (method request = "POST") then _ else _) as [file|]; [|done].
  destruct (decide (name file = "")) as [?|_]; [done|].
  unfold try_except. destruct (read_upload file) as [[df|e]|]; [| done..].
  unfold mbind, M_bind, lift, import_dataframe.
  destruct (bool_decide _); [|done].
  unfold mbind, M_bind, mret, M_ret.
  pose proof (import_rows_extends (rows df) clock 0 db) as (_ & Hsub & _).
  by destruct (import_rows clock (rows df) 0 db) as [[[n|e] db'] w].
Qed.

(** C7 (as amended). When an upload reads as a frame and its import
    reports [n] created students: [n] is the number of distinct trimmed
    roll numbers of the frame that the roster did not hold; importing the
    same upload again reports 0 created, writes nothing and leaves the
    store as it was; and every student the roster held before the first
    import is still there, name and course unchanged. *)
Theorem import_students_twice clock1 clock2 db file df n :
  read_upload file = Some (Return df) →
  result (import_students clock1 (POST_upload file) db)
  = Return (Redirect (Named "attendance_list"), [MsgSuccessImported n]) →
  let first := import_students clock1 (POST_upload file) db in
  let second := import_students clock2 (POST_upload file) (store first) in
  n = new_rolls df (students db)
  ∧ result second = Return (Redirect (Named "attendance_list"), [MsgSuccessImported 0])
  ∧ store second = store first
  ∧ writes second = []
  ∧ students db ⊆ students (store first).
Proof.
  intros Hread Hfirst first second.
  pose proof (import_students_again clock1 clock2 file db) as [Hstore Hwrites].
  pose proof (import_students_preserves clock1 (POST_upload file) db) as Hkeep.
  fold first in Hstore, Hwrites, Hkeep, Hfirst. fold second in Hstore, Hwrites.
  split; [|split; [|done]].
  - subst first. rewrite import_students_upload, Hread in Hfirst
      by (by eapply read_upload_name).
    destruct (bool_decide _); [|done].
    destruct (import_rows clock1 (rows df) 0 db) as [[[m|e] db'] w] eqn:Hrun;
      cbn [result fst] in Hfirst; [|done].
    injection Hfirst as <-.
    rewrite (import_rows_count (rows df) clock1 0 m db) by (by rewrite Hrun).
    unfold new_rolls. lia.
  - subst second first. revert Hfirst.
    rewrite !import_students_upload, !Hread by (by eapply read_upload_name).
    destruct (bool_decide _); [|done].
    pose proof (import_rows_again (rows df) clock1 clock2 0 0 db) as Hagain.
    destruct (import_rows clock1 (rows df) 0 db) as [[[m|e] db'] w];
      cbn [store result fst snd] in *; [|done].
    intros _. by rewrite Hagain.
Qed.

(** C8. An upload that reads as a frame without one of the three required
    columns is answered with the error message and the redirect back to
    the form; no row is looked at, nothing is written, the store stays. *)
Theorem import_students_missing_column clock db file df col :
  read_upload file = Some (Return df) →
  col ∈ required_columns →
  col ∉ columns df →
  import_students clock (POST_upload file) db
  = (Return (Redirect (Named "import_students"),
             [MsgError "Excel file must contain columns: Student Name, Roll Number, Course Name"]),
     db, []).
Proof.
  intros Hread Hreq Hmiss.
  rewrite import_students_upload, Hread by (by eapply read_upload_name).
  rewrite bool_decide_eq_false_2; [done|].
  intros Hall. apply Hmiss. rewrite Forall_forall in Hall.
  apply Hall, list_elem_of_In, Hreq.
Qed.

End import_students_properties.

Lemma import_students_twice_witness :
  @read_upload Instances.plain_pandas Scenarios.upload_three_rows
  = Some (Return Scenarios.frame_three_rows)
  ∧ result (@import_students (Instances.binary_backend true) Instances.plain_pandas
              Scenarios.noon (Instances.POST_upload Scenarios.upload_three_rows)
              Scenarios.roster_AB)
    = Return (Redirect (Named "attendance_list"), [MsgSuccessImported 2])
  ∧ 2 = new_rolls Scenarios.frame_three_rows (students Scenarios.roster_AB).
Proof.
  assert (@read_upload Instances.plain_pandas Scenarios.upload_three_rows
          = Some (Return Scenarios.frame_three_rows)) as Hread
    by (vm_compute; reflexivity).
  assert (result (@import_students (Instances.binary_backend true) Instances.plain_pandas
                    Scenarios.noon (Instances.POST_upload Scenarios.upload_three_rows)
                    Scenarios.roster_AB)
          = Return (Redirect (Named "attendance_list"), [MsgSuccessImported 2])) as Hfirst
    by (vm_compute; reflexivity).
  split; [exact Hread|]. split; [exact Hfirst|].
  exact (proj1 (@import_students_twice (Instances.binary_backend true)
                  Instances.plain_pandas Scenarios.noon Scenarios.noon
                  Scenarios.roster_AB Scenarios.upload_three_rows
                  Scenarios.frame_three_rows 2 Hread Hfirst)).
Defined.

(** C7 as stated fails where the roster already holds a roll number of the
    upload: the frame has two distinct roll numbers, its first import
    reports one created student. *)
Lemma import_students_known_roll :
  @read_upload Instances.plain_pandas Scenarios.upload_known_roll
  = Some (Return Scenarios.frame_known_roll)
  ∧ distinct_rolls Scenarios.frame_known_roll = 2
  ∧ result (@import_students (Instances.binary_backend true) Instances.plain_pandas
              Scenarios.noon (Instances.POST_upload Scenarios.upload_known_roll)
              Scenarios.roster_AB)
    = Return (Redirect (Named "attendance_list"), [MsgSuccessImported 1])
  ∧ result (@import_students (Instances.binary_backend true) Instances.plain_pandas
              Scenarios.noon (Instances.POST_upload Scenarios.upload_known_roll)
              Scenarios.roster_AB)
    ≠ Return (Redirect (Named "attendance_list"),
              [MsgSuccessImported (distinct_rolls Scenarios.frame_known_roll)]).
Proof. repeat split; by vm_compute. Qed.

Lemma import_students_missing_column_witness :
  @read_upload Instances.plain_pandas Scenarios.upload_two_columns
  = Some (Return Scenarios.frame_two_columns)
  ∧ ("Course Name" ∈ required_columns)
  ∧ ("Course Name" ∉ columns Scenarios.frame_two_columns)
  ∧ @import_students (Instances.binary_backend true) Instances.plain_pandas
      Scenarios.noon (Instances.POST_upload Scenarios.upload_two_columns)
      Scenarios.roster_AB
    = (Return (Redirect (Named "import_students"),
               [MsgError "Excel file must contain columns: Student Name, Roll Number, Course Name"]),
       Scenarios.roster_AB, []).
Proof.
  assert (@read_upload Instances.plain_pandas Scenarios.upload_two_columns
          = Some (Return Scenarios.frame_two_columns)) as Hread
    by (vm_compute; reflexivity).
  assert ("Course Name" ∈ required_columns) as Hreq
    by (eapply (bool_decide_unpack _); vm_compute; exact I).
  assert ("Course Name" ∉ columns Scenarios.frame_two_columns) as Hmiss
    by (eapply (bool_decide_unpack _); vm_compute; exact I).
  split; [exact Hread|]. split; [exact Hreq|]. split; [exact Hmiss|].
  exact (@import_students_missing_column (Instances.binary_backend true)
           Instances.plain_pandas Scenarios.noon Scenarios.roster_AB
           Scenarios.upload_two_columns Scenarios.frame_two_columns "Course Name"
           Hread Hreq Hmiss).
Defined.

(** The scenario of a file that holds the row (Jane, R1, CS) twice: one
    student is created. *)
Example import_same_row_twice :
  result (@import_students (Instances.binary_backend true) Instances.plain_pandas
            Scenarios.noon
            (Instances.POST_upload
               {| name := "students.csv";
                  content := "Student Name,Roll Number,Course Name
Jane,R1,CS
Jane,R1,CS
" |})
            Scenarios.roster_AB)
  = Return (Redirect (Named "attendance_list"), [MsgSuccessImported 1]).
Proof. by vm_compute. Qed.

(** The scenario of an upload that is no spreadsheet by its name. *)
Example import_unsupported_format :
  @import_students (Instances.binary_backend true) Instances.plain_pandas
    Scenarios.noon
    (Instances.POST_upload {| name := "students.pdf"; content := "" |})
    Scenarios.roster_AB
  = (Return (Redirect (Named "import_students"),
             [MsgError "Unsupported file format. Please use .xlsx, .xls, or .csv files"]),
     Scenarios.roster_AB, []).
Proof. by vm_compute. Qed.

(** * Further properties of the views *)

(** ** [attendance_list] *)

Section attendance_list_properties.
Import Instances Scenarios.
Context `{Backend}.
Implicit Types (clock : nat → Z) (db : DB) (request : HttpRequest).

(** The dict the loop appends for a student when the list has [n] entries. *)
Lemma attendance_list_loop_imap students today_absences acc :
  attendance_list_loop students today_absences acc
  = acc ++ imap (λ i st,
             {| AttendanceList.student := st;
                AttendanceList.is_absent := bool_decide (st.1 ∈ today_absences);
                AttendanceList.sl_no := Z.of_nat (length acc + i) + 1 |}) students.
Proof.
  revert acc. induction students as [|st rest IH]; intros acc.
  { cbn. by rewrite app_nil_r. }
  cbn [attendance_list_loop imap]. rewrite IH, <- app_assoc. cbn [app].
  rewrite Nat.add_0_r. do 2 f_equal.
  apply imap_ext. intros i x _. cbn. rewrite length_app. cbn.
  do 3 f_equal. lia.
Qed.

Lemma in_values_list_student_id (s day : Z) (table : gmap Z Absence) :
  s ∈ values_list_student_id (Absence_filter_date day table)
  ↔ ∃ k a, table !! k = Some a ∧ student a = s ∧ date (date_time a) = day.
Proof.
  unfold values_list_student_id. rewrite list_elem_of_fmap. split.
  - intros ([k a] & -> & Hin). apply elem_of_map_to_list in Hin.
    apply map_lookup_filter_Some in Hin as [Ha Hd]. by exists k, a.
  - intros (k & a & Ha & <- & Hd). exists (k, a). split; [done|].
    apply elem_of_map_to_list. by apply map_lookup_filter_Some.
Qed.

(** The two ways the views ask whether a student is absent on a day agree:
    [student.id in today_absences] and [filter(student=..., ...).exists()]. *)
Lemma in_values_list_exists (s day : Z) (table : gmap Z Absence) :
  bool_decide (s ∈ values_list_student_id (Absence_filter_date day table))
  = qs_exists (Absence_filter s day table).
Proof.
  unfold qs_exists at 1. apply bool_decide_ext.
  rewrite in_values_list_student_id, <- qs_exists_row.
  unfold qs_exists. by rewrite bool_decide_eq_true.
Qed.

Lemma attendance_list_run clock request db :
  attendance_list clock request db =
    (Return (Render "attendance/attendance_list.html"
       {| AttendanceList.students_with_status :=
            imap (λ i st,
              {| AttendanceList.student := st;
                 AttendanceList.is_absent :=
                   qs_exists (Absence_filter st.1 (date (clock 0%nat)) (absences db));
                 AttendanceList.sl_no := Z.of_nat i + 1 |})
              (Student_order_by_roll_number (students db)) |}),
     db, []).
Proof.
  unfold attendance_list, query. unfold mbind, M_bind, mret, M_ret. cbn [app].
  rewrite attendance_list_loop_imap. cbn [app length]. do 5 f_equal.
  apply imap_ext. intros i st _. cbn. by rewrite in_values_list_exists.
Qed.

(** X1. The roster page lists every student exactly once, in ascending
    roll-number order, numbers the entries from 1 and flags an entry
    exactly when the store holds an Absence row of that student dated
    today; it leaves the store as it is. *)
Theorem attendance_list_entries clock request db :
  ∃ ctx,
    attendance_list clock request db
    = (Return (Render "attendance/attendance_list.html" ctx), db, [])
    ∧ AttendanceList.student <$> AttendanceList.students_with_status ctx
      ≡ₚ map_to_list (students db)
    ∧ Sorted roll_le
        (AttendanceList.student <$> AttendanceList.students_with_status ctx)
    ∧ ∀ i e,
        AttendanceList.students_with_status ctx !! i = Some e →
        AttendanceList.sl_no e = Z.of_nat i + 1
        ∧ (AttendanceList.is_absent e = true
           ↔ ∃ k a, absences db !! k = Some a
                    ∧ student a = (AttendanceList.student e).1
                    ∧ date (date_time a) = date (clock 0%nat)).
Proof.
  rewrite attendance_list_run. eexists. split; [done|].
  cbn [AttendanceList.students_with_status].
  assert (∀ l : list (Z * Student),
            AttendanceList.student <$>
              imap (λ i st,
                {| AttendanceList.student := st;
                   AttendanceList.is_absent :=
                     qs_exists (Absence_filter st.1 (date (clock 0%nat)) (absences db));
                   AttendanceList.sl_no := Z.of_nat i + 1 |}) l = l) as Hproj.
  { intros l. rewrite fmap_imap.
    rewrite (imap_ext _ (const id) l) by done.
    by rewrite imap_const, list_fmap_id. }
  rewrite Hproj. split; [apply order_by_roll_number_perm|].
  split; [apply order_by_roll_number_sorted|].
  intros i e He. apply list_lookup_imap_Some in He as (st & Hst & ->).
  cbn [AttendanceList.sl_no AttendanceList.is_absent AttendanceList.student].
  split; [done|]. apply qs_exists_row.
Qed.

(** X2. The roster page and the walker agree: whatever student the walker
    shows at a position, the roster page has at that place the same
    student with the same absence flag, numbered one more than the
    position, and as many entries as the walker counts students. *)
Theorem attendance_list_agrees_with_walker `{PyFloat, PyStr} clock db index position ctx :
  int index = Return position →
  result (take_attendance clock (GET_request (Some index) None) db)
  = Return (Render "attendance/take_attendance.html" ctx) →
  ∃ page e,
    result (attendance_list clock (GET_request None None) db)
    = Return (Render "attendance/attendance_list.html" page)
    ∧ AttendanceList.students_with_status page !! Z.to_nat position = Some e
    ∧ AttendanceList.student e = TakeAttendance.current_student ctx
    ∧ AttendanceList.is_absent e = TakeAttendance.is_absent_today ctx
    ∧ AttendanceList.sl_no e = TakeAttendance.current_index ctx + 1
    ∧ Z.of_nat (length (AttendanceList.students_with_status page))
      = TakeAttendance.total_students ctx.
Proof.
  intros Hindex.
  rewrite (take_attendance_run clock db index position Hindex), attendance_list_run.
  destruct (decide (Z.of_nat (size (students db)) ≤ position)) as [?|Hlt]; [done|].
  unfold qs_getitem. destruct (decide (position < 0)) as [?|Hpos]; [done|].
  destruct (Student_order_by_roll_number (students db) !! Z.to_nat position)
    as [cur|] eqn:Hcur; [|done].
  intros [= <-]. eexists _, _. split; [done|].
  cbn [AttendanceList.students_with_status].
  rewrite list_lookup_imap, Hcur. split; [done|].
  cbn [AttendanceList.student AttendanceList.is_absent AttendanceList.sl_no
       TakeAttendance.current_student TakeAttendance.is_absent_today
       TakeAttendance.current_index TakeAttendance.total_students].
  rewrite length_imap, order_by_roll_number_length.
  repeat split; try done. f_equal. lia.
Qed.

End attendance_list_properties.

Lemma attendance_list_agrees_with_walker_witness :
  @int Instances.ascii_str "0" = Return 0
  ∧ result (@take_attendance (Instances.binary_backend true) Instances.binary64
            Instances.ascii_str Scenarios.noon
            (Instances.GET_request (Some "0") None) Scenarios.A_absent)
  = Return (Render "attendance/take_attendance.html"
      (@TakeAttendance.Build_context Instances.binary64
         (1, Scenarios.student_A) 0 2 (Instances.b64 50) true))
  ∧ ∃ page e,
      result (@attendance_list (Instances.binary_backend true) Scenarios.noon
                (Instances.GET_request None None) Scenarios.A_absent)
      = Return (Render "attendance/attendance_list.html" page)
      ∧ AttendanceList.students_with_status page !! Z.to_nat 0 = Some e
      ∧ AttendanceList.student e = (1, Scenarios.student_A)
      ∧ AttendanceList.is_absent e = true
      ∧ AttendanceList.sl_no e = 0 + 1
      ∧ Z.of_nat (length (AttendanceList.students_with_status page)) = 2.
Proof.
  assert (result (@take_attendance (Instances.binary_backend true) Instances.binary64
                    Instances.ascii_str Scenarios.noon
                    (Instances.GET_request (Some "0") None) Scenarios.A_absent)
          = Return (Render "attendance/take_attendance.html"
              (@TakeAttendance.Build_context Instances.binary64
                 (1, Scenarios.student_A) 0 2 (Instances.b64 50) true))) as Hrun
    by reflexivity.
  split; [reflexivity|]. split; [exact Hrun|].
  exact (@attendance_list_agrees_with_walker (Instances.binary_backend true)
           Instances.binary64 Instances.ascii_str Scenarios.noon Scenarios.A_absent
           "0" 0 _ eq_refl Hrun).
Defined.

(** ** [mark_attendance], further *)

Section mark_attendance_effects.
Import Instances.
Context `{PyStr}.
Implicit Types (clock : nat → Z) (db : DB) (request : HttpRequest) (sid pos : Z).
Implicit Types (student_id current_index decision : string).

Lemma mark_attendance_students clock request db :
  students (store (mark_attendance clock request db)) = students db.
Proof.
  by destruct (mark_attendance_cases clock request db)
    as [[_ ->]|(sid & _ & _ & Hst & _)].
Qed.

(** The rows of another student, or of another day, are the same after a
    call whose clock readings fall on one day. *)
Lemma mark_attendance_other_rows clock db student_id current_index decision sid
    (s day : Z) :
  int student_id = Return sid →
  date (clock 1%nat) = date (clock 0%nat) →
  ¬ (s = sid ∧ day = date (clock 0%nat)) →
  Absence_filter s day
    (absences (store (mark_attendance clock
                        (POST_mark student_id current_index decision) db)))
  = Absence_filter s day (absences db).
Proof.
  intros Hsid Hday Hne.
  destruct (mark_attendance_cases clock (POST_mark student_id current_index decision) db)
    as [[_ ->]|(sid' & Hid & _ & _ & Hrows)]; [done|].
  cbn [POST_mark POST_student_id AutoField_get_prep_value] in Hid.
  rewrite Hsid in Hid. injection Hid as <-.
  destruct Hrows as [[_ ->]| ->].
  - unfold Absence_filter. rewrite map_filter_insert_not'; [done| |].
    + cbn [snd student date_time]. rewrite Hday. intros [<- <-]. by apply Hne.
    + intros y Hy. by rewrite fresh_pk_unused in Hy.
  - unfold Absence_filter. rewrite map_filter_filter. apply map_filter_ext.
    intros k a _. cbn [snd]. split; [tauto|]. intros [Hst Hd']. split; [done|].
    intros [Hst' Hd'']. apply Hne. split; congruence.
Qed.

(** After a call for a student of the roster, the student has a row today
    exactly when absent was asked. *)
Lemma mark_attendance_own_rows clock db student_id current_index decision sid pos :
  int student_id = Return sid →
  int current_index = Return pos →
  date (clock 1%nat) = date (clock 0%nat) →
  is_Some (students db !! sid) →
  qs_exists (Absence_filter sid (date (clock 0%nat))
               (absences (store (mark_attendance clock
                                   (POST_mark student_id current_index decision) db))))
  = bool_decide (decision = "absent").
Proof.
  intros Hsid Hpos Hday Hs. destruct (decide (decision = "absent")) as [->|Hd].
  - rewrite bool_decide_eq_true_2 by done.
    rewrite (mark_absent_run clock db _ _ sid pos Hsid Hpos Hs).
    pose proof (qs_get_cases (Absence_filter sid (date (clock 0%nat)) (absences db))) as Hc.
    unfold qs_exists. apply bool_decide_eq_true_2.
    destruct (qs_get _) as [r|e]; cbn [store fst snd absences].
    + rewrite Hc. apply insert_non_empty.
    + destruct e; try done; cbn [store fst snd absences].
      * rewrite Absence_filter_insert_today by done. apply insert_non_empty.
      * intros He. rewrite He, map_size_empty in Hc. lia.
  - rewrite bool_decide_eq_false_2 by done.
    rewrite (mark_other_run clock db _ _ sid pos decision Hsid Hpos Hd Hs).
    cbn [store fst snd absences]. rewrite Absence_filter_deleted.
    unfold qs_exists. apply bool_decide_eq_false_2. intros Hne. by apply Hne.
Qed.

(** X3. A POST to mark whose [current_index] is missing or reads as a
    number, and whose [student_id] is missing or reads as the number of
    no student of the roster, is answered with a 404; nothing is written
    and the store stays. *)
Theorem mark_attendance_unknown_student clock request db pos :
  method request = "POST" →
  int_get_0 (POST_current_index request) = Return pos →
  (∀ text, POST_student_id request = Some text →
           ∃ k, int text = Return k ∧ students db !! k = None) →
  mark_attendance clock request db = (Raise Http404, db, []).
Proof.
  intros Hm Hpos Hid. rewrite mark_attendance_run, Hm.
  destruct (decide ("POST" = "POST")) as [_|?]; [|done]. rewrite Hpos.
  unfold AutoField_get_prep_value.
  destruct (POST_student_id request) as [text|]; [|done].
  destruct (Hid text eq_refl) as (k & -> & Hk). cbn [mbind option_bind].
  by rewrite Hk.
Qed.

(** X25. A POST to mark whose [current_index] does not read as a number
    fails with the [ValueError] of [int], before the student is looked
    up; one whose [current_index] is fine and whose [student_id] does not
    read as a number fails with the [ValueError] of the [id] field, not
    with a 404. Either way nothing is written and the store stays. *)
Theorem mark_attendance_not_a_number clock request db :
  method request = "POST" →
  (∀ text msg,
     POST_current_index request = Some text →
     int_str text = inr msg →
     mark_attendance clock request db = (Raise (ValueError msg), db, []))
  ∧ (∀ text msg pos,
     int_get_0 (POST_current_index request) = Return pos →
     POST_student_id request = Some text →
     int_str text = inr msg →
     mark_attendance clock request db
     = (Raise (ValueError
                 ("Field 'id' expected a number but got " +:+ repr text +:+ ".")),
        db, [])).
Proof.
  intros Hm. split.
  - intros text msg Htext Hbad. rewrite mark_attendance_run, Hm, Htext.
    destruct (decide ("POST" = "POST")) as [_|?]; [|done].
    cbn [int_get_0]. unfold int. by rewrite Hbad.
  - intros text msg pos Hpos Htext Hbad. rewrite mark_attendance_run, Hm, Hpos, Htext.
    destruct (decide ("POST" = "POST")) as [_|?]; [|done].
    cbn [AutoField_get_prep_value]. unfold int. by rewrite Hbad.
Qed.

(** X4. Marking absent a student who already has two or more rows today
    raises [MultipleObjectsReturned]; nothing is written and the rows
    stay as they are. *)
Theorem mark_absent_many_rows clock db student_id current_index sid pos :
  int student_id = Return sid →
  int current_index = Return pos →
  is_Some (students db !! sid) →
  (2 ≤ size (Absence_filter sid (date (clock 0%nat)) (absences db)))%nat →
  mark_attendance clock (POST_mark student_id current_index "absent") db
  = (Raise MultipleObjectsReturned, db, []).
Proof.
  intros Hsid Hpos Hs Hmany.
  rewrite (mark_absent_run clock db _ _ sid pos Hsid Hpos Hs). by rewrite qs_get_many.
Qed.

(** X5. Marking keeps referential integrity: if every Absence row points to
    a student of the roster before the call, so it does after, whatever
    the request. *)
Theorem mark_attendance_referential clock request db :
  referential db →
  referential (store (mark_attendance clock request db)).
Proof.
  intros Href k a. rewrite mark_attendance_students.
  destruct (mark_attendance_cases clock request db)
    as [[_ ->]|(sid & _ & Hs & _ & [[_ ->]| ->])]; [apply Href| |].
  - intros Ha. apply lookup_insert_Some in Ha as [[_ <-]|[_ Ha]]; [done|by eapply Href].
  - intros Ha. apply map_lookup_filter_Some in Ha as [Ha _]. by eapply Href.
Qed.

End mark_attendance_effects.

Section marks_witnesses.
Import Instances Scenarios.

Lemma mark_attendance_unknown_student_witness :
  method (POST_mark "9" "0" "absent") = "POST"
  ∧ @int ascii_str "9" = Return 9
  ∧ students A_absent !! 9 = None
  ∧ @mark_attendance ascii_str noon (POST_mark "9" "0" "absent") A_absent
    = (Raise Http404, A_absent, []).
Proof.
  split; [reflexivity|]. split; [reflexivity|]. split; [reflexivity|].
  apply (@mark_attendance_unknown_student ascii_str noon (POST_mark "9" "0" "absent")
           A_absent 0); [reflexivity|reflexivity|].
  intros text [= <-]. exists 9. split; reflexivity.
Defined.

Lemma mark_attendance_not_a_number_witness :
  method (POST_mark "abc" "0" "absent") = "POST"
  ∧ @mark_attendance ascii_str noon (POST_mark "1" "next" "absent") A_absent
    = (Raise (ValueError "invalid literal for int() with base 10: 'next'"), A_absent, [])
  ∧ @mark_attendance ascii_str noon (POST_mark "abc" "0" "absent") A_absent
    = (Raise (ValueError "Field 'id' expected a number but got 'abc'."), A_absent, []).
Proof.
  split; [reflexivity|]. split.
  - exact (proj1 (@mark_attendance_not_a_number ascii_str noon
                    (POST_mark "1" "next" "absent") A_absent eq_refl)
             "next" _ eq_refl eq_refl).
  - exact (proj2 (@mark_attendance_not_a_number ascii_str noon
                    (POST_mark "abc" "0" "absent") A_absent eq_refl)
             "abc" _ 0 eq_refl eq_refl eq_refl).
Defined.

Lemma mark_absent_many_rows_witness :
  @int ascii_str "1" = Return 1
  ∧ is_Some (students A_absent_twice !! 1)
  ∧ (2 ≤ size (Absence_filter 1 (date (noon 0%nat)) (absences A_absent_twice)))%nat
  ∧ @mark_attendance ascii_str noon (POST_mark "1" "0" "absent") A_absent_twice
    = (Raise MultipleObjectsReturned, A_absent_twice, []).
Proof.
  assert (is_Some (students A_absent_twice !! 1)) as Hs by (by eexists).
  assert (2 ≤ size (Absence_filter 1 (date (noon 0%nat)) (absences A_absent_twice)))%nat
    as Hn by (vm_compute; lia).
  split; [reflexivity|]. split; [exact Hs|]. split; [exact Hn|].
  exact (@mark_absent_many_rows ascii_str noon A_absent_twice "1" "0" 1 0
           eq_refl eq_refl Hs Hn).
Defined.

Lemma A_absent_referential : referential A_absent.
Proof.
  intros k a Ha. unfold A_absent in Ha. cbn [absences] in Ha.
  apply lookup_singleton_Some in Ha as [_ <-]. by eexists.
Qed.

Lemma mark_attendance_referential_witness :
  referential A_absent
  ∧ referential (store (@mark_attendance ascii_str noon (POST_mark "2" "1" "absent")
                          A_absent)).
Proof.
  split; [exact A_absent_referential|].
  exact (@mark_attendance_referential ascii_str noon (POST_mark "2" "1" "absent")
           A_absent A_absent_referential).
Defined.

Lemma A_absent_at_most_one : at_most_one_per_day (absences A_absent).
Proof.
  intros s day. unfold A_absent. cbn [absences].
  etrans; [apply map_subseteq_size, map_filter_subseteq|].
  by rewrite map_size_singleton.
Qed.

Lemma mark_attendance_at_most_one_witness :
  date (noon 1%nat) = date (noon 0%nat)
  ∧ at_most_one_per_day (absences A_absent)
  ∧ at_most_one_per_day
      (absences (store (@mark_attendance ascii_str noon (POST_mark "2" "1" "absent")
                          A_absent))).
Proof.
  split; [reflexivity|]. split; [exact A_absent_at_most_one|].
  exact (@mark_attendance_at_most_one ascii_str noon (POST_mark "2" "1" "absent")
           A_absent eq_refl A_absent_at_most_one).
Defined.

End marks_witnesses.

Section marks_and_pages.
Import Instances Scenarios.
Implicit Types (clock : nat → Z) (db : DB) (sid pos : Z).
Implicit Types (student_id current_index decision : string).

(** X7. What a mark shows on the roster page: after a call of mark (its
    clock readings and the page's on one day) the page is the page of
    before with the flag of the marked student set to whether absent was
    asked; every other entry, the order and the numbering are unchanged. *)
Theorem attendance_list_after_mark `{Backend, PyStr} clock clock' request db
    student_id current_index decision sid pos :
  int student_id = Return sid →
  int current_index = Return pos →
  date (clock 1%nat) = date (clock 0%nat) →
  date (clock' 0%nat) = date (clock 0%nat) →
  ∃ before after,
    result (attendance_list clock' request db)
    = Return (Render "attendance/attendance_list.html" before)
    ∧ result (attendance_list clock' request
                (store (mark_attendance clock
                          (POST_mark student_id current_index decision) db)))
      = Return (Render "attendance/attendance_list.html" after)
    ∧ AttendanceList.students_with_status after
      = with_flag sid (bool_decide (decision = "absent"))
          <$> AttendanceList.students_with_status before.
Proof.
  intros Hsid Hpos Hday Hday'. rewrite !attendance_list_run, mark_attendance_students.
  eexists _, _. split; [done|]. split; [done|].
  cbn [AttendanceList.students_with_status result fst]. rewrite fmap_imap.
  apply imap_ext. intros i st Hst. unfold with_flag. cbn.
  rewrite Hday'. destruct (decide (st.1 = sid)) as [<-|Hne].
  - f_equal. apply (mark_attendance_own_rows clock db _ _ _ st.1 pos); [done..|].
    apply list_elem_of_lookup_2 in Hst.
    rewrite order_by_roll_number_perm in Hst. destruct st as [k s].
    apply elem_of_map_to_list in Hst. by eexists.
  - f_equal. f_equal. apply (mark_attendance_other_rows clock db _ _ _ sid); [done..|].
    intros [? _]. by apply Hne.
Qed.

Lemma attendance_list_after_mark_witness :
  @int ascii_str "2" = Return 2
  ∧ @int ascii_str "1" = Return 1
  ∧ date (noon 1%nat) = date (noon 0%nat)
  ∧ date (noon 0%nat) = date (noon 0%nat)
  ∧ ∃ before after,
      result (@attendance_list (binary_backend true) noon (GET_request None None) roster_AB)
      = Return (Render "attendance/attendance_list.html" before)
      ∧ result (@attendance_list (binary_backend true) noon (GET_request None None)
                  (store (@mark_attendance ascii_str noon (POST_mark "2" "1" "absent")
                            roster_AB)))
        = Return (Render "attendance/attendance_list.html" after)
      ∧ AttendanceList.students_with_status after
        = with_flag 2 (bool_decide ("absent" = "absent"))
            <$> AttendanceList.students_with_status before.
Proof.
  split; [reflexivity|]. split; [reflexivity|].
  split; [reflexivity|]. split; [reflexivity|].
  exact (@attendance_list_after_mark (binary_backend true) ascii_str noon noon
           (GET_request None None) roster_AB "2" "1" "absent" 2 1
           eq_refl eq_refl eq_refl eq_refl).
Defined.

End marks_and_pages.

(** ** The reports *)

Section report_properties.
Import Instances Scenarios.
Implicit Types (clock : nat → Z) (db : DB) (request : HttpRequest) (sid pos day : Z).
Implicit Types (student_id current_index : string).

(** The rows of a day are those of one student and those of the others. *)
Lemma size_filter_date_split (table : gmap Z Absence) sid day :
  size (Absence_filter_date day table)
  = (size (Absence_filter sid day table)
     + size (Absence_filter_date day
               (filter (λ r, ¬ (student r.2 = sid ∧ date (date_time r.2) = day)) table)))%nat.
Proof.
  rewrite <- (map_filter_union_complement (λ r, student r.2 = sid)
                (Absence_filter_date day table)) at 1.
  rewrite map_size_disj_union by apply map_disjoint_filter_complement.
  unfold Absence_filter_date, Absence_filter. rewrite !map_filter_filter.
  f_equal. apply (f_equal size), map_filter_ext. intros k a _. cbn [snd]. split.
  - intros [Hn Hd]. split; [done|]. intros [Hs _]. by apply Hn.
  - intros [Hd Hn]. split; [|done]. intros Hs. apply Hn. by split.
Qed.

(** Under referential integrity and at most one row per student and day, a
    day has no more Absence rows than the roster has students. *)
Lemma absences_of_day_le_students db day :
  referential db →
  at_most_one_per_day (absences db) →
  (size (Absence_filter_date day (absences db)) ≤ size (students db))%nat.
Proof.
  intros Href Hone.
  set (m := Absence_filter_date day (absences db)).
  assert (NoDup ((λ r : Z * Absence, student r.2) <$> map_to_list m)) as Hnd.
  { apply NoDup_fmap_2_strong; [|apply NoDup_map_to_list].
    intros [k1 a1] [k2 a2] H1 H2 Heq. cbn [snd] in Heq.
    apply elem_of_map_to_list, map_lookup_filter_Some in H1 as [H1 Hd1].
    apply elem_of_map_to_list, map_lookup_filter_Some in H2 as [H2 Hd2].
    cbn [snd] in Hd1, Hd2.
    destruct (decide (k1 = k2)) as [->|Hk]; [by simplify_eq|].
    exfalso. pose proof (Hone (student a1) day) as Hle.
    set (F := Absence_filter (student a1) day (absences db)) in Hle.
    assert (F !! k1 = Some a1) as HF1 by (by apply map_lookup_filter_Some).
    assert (F !! k2 = Some a2) as HF2 by (by apply map_lookup_filter_Some).
    rewrite <- (insert_delete_id F k1 a1 HF1) in Hle.
    rewrite map_size_insert_None in Hle by apply lookup_delete_eq.
    assert (size (delete k1 F) ≠ 0)%nat; [|lia].
    apply (map_size_ne_0_lookup_2 _ k2). rewrite lookup_delete_ne by done. by eexists. }
  rewrite <- (length_map_to_list m), <- (length_fmap (λ r : Z * Absence, student r.2)).
  rewrite <- (size_list_to_set (C := gset Z)) by done.
  rewrite <- (size_dom (D := gset Z) (students db)).
  apply subseteq_size. intros s Hs.
  apply elem_of_list_to_set, list_elem_of_fmap in Hs as ([k a] & -> & Hin).
  apply elem_of_map_to_list, map_lookup_filter_Some in Hin as [Ha _].
  apply elem_of_dom. by eapply Href.
Qed.

(** X8. Marking absent a student of the roster who has no row today moves
    one student from present to absent on the printable report. *)
Theorem report_after_mark_absent `{PyFloat, PyStr} clock clock' request db
    student_id current_index sid pos :
  int student_id = Return sid →
  int current_index = Return pos →
  is_Some (students db !! sid) →
  date (clock 1%nat) = date (clock 0%nat) →
  date (clock' 0%nat) = date (clock 0%nat) →
  Absence_filter sid (date (clock 0%nat)) (absences db) = ∅ →
  ∃ before after,
    result (print_absentees clock' request db)
    = Return (Render "attendance/print_absentees.html" before)
    ∧ result (print_absentees clock' request
                (store (mark_attendance clock
                          (POST_mark student_id current_index "absent") db)))
      = Return (Render "attendance/print_absentees.html" after)
    ∧ PrintAbsentees.total_absent after = PrintAbsentees.total_absent before + 1
    ∧ PrintAbsentees.total_present after = PrintAbsentees.total_present before - 1.
Proof.
  intros Hsid Hpos Hs Hday Hday' Hnone. rewrite !print_absentees_run.
  rewrite mark_attendance_students, Hday'.
  rewrite (mark_absent_run clock db _ _ sid pos Hsid Hpos Hs), Hnone, qs_get_empty.
  eexists _, _. split; [done|]. split; [done|].
  cbn [PrintAbsentees.total_absent PrintAbsentees.total_present store fst snd absences].
  unfold Absence_filter_date. rewrite map_filter_insert_True by done.
  rewrite map_size_insert_None; [lia|].
  apply map_lookup_filter_None. left. apply fresh_pk_unused.
Qed.

Lemma report_after_mark_absent_witness :
  @int ascii_str "2" = Return 2
  ∧ is_Some (students A_absent !! 2)
  ∧ Absence_filter 2 (date (noon 0%nat)) (absences A_absent) = ∅
  ∧ ∃ before after,
      result (@print_absentees binary64 noon (GET_request None None) A_absent)
      = Return (Render "attendance/print_absentees.html" before)
      ∧ result (@print_absentees binary64 noon (GET_request None None)
                  (store (@mark_attendance ascii_str noon (POST_mark "2" "1" "absent")
                            A_absent)))
        = Return (Render "attendance/print_absentees.html" after)
      ∧ PrintAbsentees.total_absent after = PrintAbsentees.total_absent before + 1
      ∧ PrintAbsentees.total_present after = PrintAbsentees.total_present before - 1.
Proof.
  assert (is_Some (students A_absent !! 2)) as Hs by (by eexists).
  assert (Absence_filter 2 (date (noon 0%nat)) (absences A_absent) = ∅) as Hnone
    by (by vm_compute).
  split; [reflexivity|]. split; [exact Hs|]. split; [exact Hnone|].
  exact (@report_after_mark_absent binary64 ascii_str noon noon (GET_request None None)
           A_absent "2" "1" 2 1 eq_refl eq_refl Hs eq_refl eq_refl Hnone).
Defined.

(** X9. Marking present a student of the roster takes as many students off
    the absent count of the printable report as the student had rows
    today, and adds them to the present count. *)
Theorem report_after_mark_present `{PyFloat, PyStr} clock clock' request db
    student_id current_index sid pos :
  int student_id = Return sid →
  int current_index = Return pos →
  is_Some (students db !! sid) →
  date (clock' 0%nat) = date (clock 0%nat) →
  ∃ before after,
    result (print_absentees clock' request db)
    = Return (Render "attendance/print_absentees.html" before)
    ∧ result (print_absentees clock' request
                (store (mark_attendance clock
                          (POST_mark student_id current_index "present") db)))
      = Return (Render "attendance/print_absentees.html" after)
    ∧ PrintAbsentees.total_absent after
      = PrintAbsentees.total_absent before
        - Z.of_nat (size (Absence_filter sid (date (clock 0%nat)) (absences db)))
    ∧ PrintAbsentees.total_present after
      = PrintAbsentees.total_present before
        + Z.of_nat (size (Absence_filter sid (date (clock 0%nat)) (absences db))).
Proof.
  intros Hsid Hpos Hs Hday'. rewrite !print_absentees_run.
  rewrite mark_attendance_students, Hday'.
  rewrite (mark_present_run clock db _ _ sid pos Hsid Hpos Hs).
  eexists _, _. split; [done|]. split; [done|].
  cbn [PrintAbsentees.total_absent PrintAbsentees.total_present store fst snd absences].
  rewrite (size_filter_date_split (absences db) sid (date (clock 0%nat))). lia.
Qed.

Lemma report_after_mark_present_witness :
  @int ascii_str "1" = Return 1
  ∧ is_Some (students A_absent_twice !! 1)
  ∧ date (noon 0%nat) = date (noon 0%nat)
  ∧ ∃ before after,
      result (@print_absentees binary64 noon (GET_request None None) A_absent_twice)
      = Return (Render "attendance/print_absentees.html" before)
      ∧ result (@print_absentees binary64 noon (GET_request None None)
                  (store (@mark_attendance ascii_str noon (POST_mark "1" "0" "present")
                            A_absent_twice)))
        = Return (Render "attendance/print_absentees.html" after)
      ∧ PrintAbsentees.total_absent after
        = PrintAbsentees.total_absent before
          - Z.of_nat (size (Absence_filter 1 (date (noon 0%nat)) (absences A_absent_twice)))
      ∧ PrintAbsentees.total_present after
        = PrintAbsentees.total_present before
          + Z.of_nat (size (Absence_filter 1 (date (noon 0%nat)) (absences A_absent_twice))).
Proof.
  assert (is_Some (students A_absent_twice !! 1)) as Hs by (by eexists).
  split; [reflexivity|]. split; [exact Hs|]. split; [reflexivity|].
  exact (@report_after_mark_present binary64 ascii_str noon noon (GET_request None None)
           A_absent_twice "1" "0" 1 0 eq_refl eq_refl Hs eq_refl).
Defined.

(** X10. On a store that keeps referential integrity and at most one row
    per student and day, the printable report never counts more absent
    students than the roster has, so its present count is not negative. *)
Theorem report_present_not_negative `{PyFloat} clock request db :
  referential db →
  at_most_one_per_day (absences db) →
  ∃ ctx,
    result (print_absentees clock request db)
    = Return (Render "attendance/print_absentees.html" ctx)
    ∧ 0 ≤ PrintAbsentees.total_present ctx
    ∧ 0 ≤ PrintAbsentees.total_absent ctx ≤ Z.of_nat (size (students db)).
Proof.
  intros Href Hone. rewrite print_absentees_run. eexists. split; [done|].
  cbn [PrintAbsentees.total_absent PrintAbsentees.total_present].
  pose proof (absences_of_day_le_students db (date (clock 0%nat)) Href Hone). lia.
Qed.

Lemma report_present_not_negative_witness :
  referential A_absent
  ∧ at_most_one_per_day (absences A_absent)
  ∧ ∃ ctx,
      result (@print_absentees binary64 noon (GET_request None None) A_absent)
      = Return (Render "attendance/print_absentees.html" ctx)
      ∧ 0 ≤ PrintAbsentees.total_present ctx
      ∧ 0 ≤ PrintAbsentees.total_absent ctx ≤ Z.of_nat (size (students A_absent)).
Proof.
  split; [exact A_absent_referential|]. split; [exact A_absent_at_most_one|].
  exact (@report_present_not_negative binary64 noon (GET_request None None) A_absent
           A_absent_referential A_absent_at_most_one).
Defined.

(** Without the two invariants the present count can fall below zero: a
    roster of two with three rows of one day. *)
Example report_present_negative :
  ∃ ctx,
    result (@print_absentees binary64 noon (GET_request None None)
              {| students := students roster_AB;
                 absences := {[ 1 := {| student := 1; date_time := 1 |};
                                2 := {| student := 1; date_time := 2 |};
                                3 := {| student := 2; date_time := 3 |} ]} |})
    = Return (Render "attendance/print_absentees.html" ctx)
    ∧ PrintAbsentees.total_present ctx = -1.
Proof. eexists. split; reflexivity. Qed.

(** X11. The three reports of a day agree: the completion page, the
    printable report and the dated list asked without a date, or with an
    empty one, hold the same Absence rows, those dated today, and count
    them alike; none of them changes the store. *)
Theorem reports_of_today_agree `{PyFloat, Datetime} clock request db
    (index : option string) :
  ∃ completed printed listed,
    attendance_complete clock request db
    = (Return (Render "attendance/attendance_complete.html" completed), db, [])
    ∧ print_absentees clock request db
      = (Return (Render "attendance/print_absentees.html" printed), db, [])
    ∧ absentees_list clock (GET_request index None) db
      = (Return (Render "attendance/absentees_list.html" listed), db, [])
    ∧ absentees_list clock (GET_request index (Some "")) db
      = (Return (Render "attendance/absentees_list.html" listed), db, [])
    ∧ AttendanceComplete.absent_students completed
      = Absence_filter_date (date (clock 0%nat)) (absences db)
    ∧ PrintAbsentees.absent_students printed = AttendanceComplete.absent_students completed
    ∧ AbsenteesList.absent_students listed = AttendanceComplete.absent_students completed
    ∧ AttendanceComplete.total_absent completed
      = Z.of_nat (size (Absence_filter_date (date (clock 0%nat)) (absences db)))
    ∧ PrintAbsentees.total_absent printed = AttendanceComplete.total_absent completed
    ∧ AbsenteesList.total_absent listed = AttendanceComplete.total_absent completed
    ∧ AbsenteesList.filter_date listed = date (clock 0%nat).
Proof.
  rewrite print_absentees_run. eexists _, _, _.
  split; [reflexivity|]. split; [reflexivity|]. split; [reflexivity|].
  split; [reflexivity|]. by repeat split.
Qed.

End report_properties.

(** ** [import_students], further *)

Section upload_names.
Import Instances Scenarios.
Context `{Pandas}.

Lemma after_last_dot_dotless (s : string) : has_dot s = false → after_last_dot s = None.
Proof.
  induction s as [|a r IH]; [done|]. cbn [has_dot after_last_dot].
  intros [Ha Hr]%orb_false_elim. rewrite (IH Hr).
  apply bool_decide_eq_false_1 in Ha. by destruct (decide (a = "."%char)).
Qed.

Lemma after_last_dot_app (stem ext : string) :
  has_dot ext = false →
  after_last_dot (stem +:+ "." +:+ ext) = Some ext.
Proof.
  intros Hext. induction stem as [|a r IH].
  - change ("" +:+ "." +:+ ext) with (String "."%char ext).
    cbn [after_last_dot]. rewrite after_last_dot_dotless by done.
    by destruct (decide ("."%char = "."%char)).
  - change (String a r +:+ "." +:+ ext) with (String a (r +:+ "." +:+ ext)).
    cbn [after_last_dot]. by rewrite IH.
Qed.

(** X12. The reader is chosen by what follows the last dot of the file
    name, whatever the case of its letters and whatever stands before the
    dot; a name without a dot is taken whole as the extension. *)
Theorem read_upload_by_extension (stem ext bytes : string) :
  has_dot ext = false →
  read_upload {| name := stem +:+ "." +:+ ext; content := bytes |} = reader_for ext bytes
  ∧ read_upload {| name := ext; content := bytes |} = reader_for ext bytes.
Proof.
  intros Hext. unfold read_upload, reader_for, split_dot_last. cbn [name content].
  by rewrite after_last_dot_app, after_last_dot_dotless.
Qed.

End upload_names.

Lemma read_upload_by_extension_witness :
  has_dot "CSV" = false
  ∧ @read_upload Instances.plain_pandas
      {| name := "year.2024" +:+ "." +:+ "CSV"; content := "a,b" |}
    = Some (Instances.plain_csv "a,b").
Proof.
  split; [reflexivity|].
  exact (proj1 (@read_upload_by_extension Instances.plain_pandas "year.2024" "CSV" "a,b"
                  eq_refl)).
Defined.

Section import_rows_further.
Context `{Backend}.
Implicit Types (clock : nat → Z) (db : DB) (rs : list (gmap string string)).

(** The loop over two runs of rows is the loop over the first, then the
    loop over the second with the count carried over. *)
Lemma import_rows_app_run rs1 rs2 clock n db :
  import_rows clock (rs1 ++ rs2) n db
  = (import_rows clock rs1 n ≫= import_rows clock rs2) db.
Proof.
  revert n db. induction rs1 as [|row rest IH]; intros n db.
  { cbn [app import_rows]. unfold mbind, M_bind, mret, M_ret.
    by destruct (import_rows clock rs2 n db) as [[r db2] w2]. }
  change ((row :: rest) ++ rs2) with (row :: (rest ++ rs2)).
  unfold mbind, M_bind. rewrite !import_rows_cons.
  destruct (row !! "Roll Number") as [roll|]; [|done].
  destruct (row !! "Student Name") as [sname|]; [|done].
  destruct (row !! "Course Name") as [cname|]; [|done].
  destruct (Student_get_or_create _ _ _ _ db) as [[[[r created]|e] db1] w1]; [|done].
  rewrite IH. unfold mbind, M_bind.
  destruct (import_rows clock rest _ db1) as [[[m|e] db2] w2]; [|done].
  destruct (import_rows clock rs2 m db2) as [[r3 db3] w3].
  by rewrite app_assoc.
Qed.

Lemma Student_get_or_create_unique roll sname cname now db :
  unique_rolls (students db) →
  unique_rolls (students (store (Student_get_or_create roll sname cname now db))).
Proof.
  intros Hu. rewrite Student_get_or_create_run.
  pose proof (qs_get_cases (Student_filter_roll roll (students db))) as Hc.
  destruct (qs_get _) as [r|e]; [done|]. destruct e; try done.
  cbn zeta. destruct (enforces_max_length && _); [done|].
  cbn [store fst snd students]. intros roll'.
  destruct (decide (roll' = roll)) as [->|Hne].
  - rewrite filter_roll_insert_same, Hc by done.
    change (<[?k := ?x]> ∅) with ({[ k := x ]} : gmap Z Student).
    by rewrite map_size_singleton.
  - rewrite filter_roll_insert_other; [apply Hu|apply fresh_pk_unused|done].
Qed.

Lemma import_rows_unique rs clock n db :
  unique_rolls (students db) →
  unique_rolls (students (store (import_rows clock rs n db))).
Proof.
  revert n db. induction rs as [|row rest IH]; intros n db Hu; [done|].
  rewrite import_rows_cons.
  destruct (row !! "Roll Number") as [roll|]; [|done].
  destruct (row !! "Student Name") as [sname|]; [|done].
  destruct (row !! "Course Name") as [cname|]; [|done].
  pose proof (Student_get_or_create_unique (strip roll) (strip sname) (strip cname)
                (clock (Z.to_nat n)) db Hu) as Hu1.
  destruct (Student_get_or_create _ _ _ _ db) as [[[[r created]|e] db1] w1];
    cbn [store fst snd] in *; [|done].
  specialize (IH (if created then n + 1 else n) db1 Hu1).
  by destruct (import_rows _ _ _ db1) as [[r2 db2] w2].
Qed.

(** When the loop returns, the roster holds the roll numbers it held and
    those of the rows. *)
Lemma import_rows_rolls rs clock n m db :
  result (import_rows clock rs n db) = Return m →
  roster_rolls (students (store (import_rows clock rs n db)))
  = roster_rolls (students db) ∪ list_to_set (row_rolls rs).
Proof.
  revert n db. induction rs as [|row rest IH]; intros n db.
  { intros _. cbn. by rewrite (right_id_L ∅ (∪)). }
  rewrite import_rows_cons. cbn [row_rolls fmap list_fmap list_to_set foldr].
  fold (row_rolls rest).
  destruct (row !! "Roll Number") as [roll|]; [|done].
  destruct (row !! "Student Name") as [sname|]; [|done].
  destruct (row !! "Course Name") as [cname|]; [|done].
  pose proof (Student_get_or_create_step (strip roll) (strip sname) (strip cname)
                (clock (Z.to_nat n)) db) as [_ Hstep].
  cbn zeta in Hstep.
  destruct (Student_get_or_create _ _ _ _ db) as [[[[r created]|e] db1] w1];
    cbn [store result writes fst snd] in *; [|done].
  specialize (IH (if created then n + 1 else n) db1).
  destruct (import_rows clock rest _ db1) as [[r2 db2] w2].
  cbn [store result fst snd] in *. intros Hm. rewrite (IH Hm).
  cbn [default]. change (id roll) with roll.
  destruct Hstep as [_ Hstep]. destruct created.
  - destruct Hstep as [_ ->]. by rewrite (assoc_L (∪)), (comm_L (∪) {[_]}).
  - destruct Hstep as [Hold ->]. rewrite (assoc_L (∪)). f_equal.
    apply set_eq. intros x. rewrite elem_of_union, elem_of_singleton.
    split; [by left|]. by intros [?| ->].
Qed.

(** The loop writes one [INSERT] per student it counts, and nothing else. *)
Lemma import_rows_writes rs clock n db :
  Forall is_InsertStudent (writes (import_rows clock rs n db))
  ∧ size (students (store (import_rows clock rs n db)))
    = (size (students db) + length (writes (import_rows clock rs n db)))%nat
  ∧ ∀ m, result (import_rows clock rs n db) = Return m →
         m = n + Z.of_nat (length (writes (import_rows clock rs n db))).
Proof.
  revert n db. induction rs as [|row rest IH]; intros n db.
  { cbn. split; [done|]. split; [lia|]. intros m [= <-]. lia. }
  rewrite import_rows_cons.
  destruct (row !! "Roll Number") as [roll|];
    [|cbn; split; [done|]; split; [lia|done]].
  destruct (row !! "Student Name") as [sname|];
    [|cbn; split; [done|]; split; [lia|done]].
  destruct (row !! "Course Name") as [cname|];
    [|cbn; split; [done|]; split; [lia|done]].
  rewrite Student_get_or_create_run.
  destruct (qs_get _) as [r|e].
  - specialize (IH n db). destruct (import_rows clock rest n db) as [[r2 db2] w2].
    cbn [store result writes fst snd app] in *. done.
  - destruct e; try (cbn; split; [done|]; split; [lia|done]).
    cbn zeta. destruct (enforces_max_length && _);
      [cbn; split; [done|]; split; [lia|done]|].
    set (db1 := {| students := _; absences := _ |}).
    specialize (IH (n + 1) db1). destruct (import_rows clock rest (n + 1) db1)
      as [[r2 db2] w2].
    cbn [store result writes fst snd app length] in *.
    destruct IH as (Hall & Hsize & Hcount). split; [by constructor|]. split.
    + rewrite Hsize. subst db1. cbn [students].
      rewrite map_size_insert_None by apply fresh_pk_unused. lia.
    + intros m Hm. rewrite (Hcount m Hm). lia.
Qed.

(** Where the roster is free of duplicate roll numbers, every row is
    complete and no cell is refused for its length, the loop returns. *)
Lemma import_rows_succeeds rs clock n db :
  Forall row_complete rs →
  enforces_max_length = false ∨ Forall row_within_limits rs →
  unique_rolls (students db) →
  ∃ m, result (import_rows clock rs n db) = Return m.
Proof.
  revert n db. induction rs as [|row rest IH]; intros n db Hcomplete Hfit Hu.
  { by exists n. }
  apply Forall_cons_1 in Hcomplete as [(Hroll & Hsname & Hcname) Hcomplete].
  assert (enforces_max_length = false ∨ Forall row_within_limits rest) as Hfit'.
  { destruct Hfit as [?|Hfit]; [by left|]. right. by apply Forall_cons_1 in Hfit as [_ ?]. }
  rewrite import_rows_cons.
  destruct Hroll as [roll Hroll], Hsname as [sname Hsname], Hcname as [cname Hcname].
  rewrite Hroll, Hsname, Hcname.
  pose proof (Student_get_or_create_unique (strip roll) (strip sname) (strip cname)
                (clock (Z.to_nat n)) db Hu) as Hu1.
  rewrite Student_get_or_create_run in Hu1 |- *.
  pose proof (qs_get_cases (Student_filter_roll (strip roll) (students db))) as Hc.
  pose proof (Hu (strip roll)) as Hle.
  destruct (qs_get _) as [r|e].
  - cbn [store fst snd] in Hu1.
    destruct (IH n db Hcomplete Hfit' Hu1) as [m Hm]. exists m.
    by destruct (import_rows clock rest n db) as [[r2 db2] w2].
  - destruct e; try done; [|lia]. cbn zeta in Hu1 |- *.
    assert (enforces_max_length &&
              exceeds_max_length
                {| student_name := strip sname; roll_number := strip roll;
                   course_name := strip cname; created_at := clock (Z.to_nat n) |}
            = false) as Hcond.
    { destruct Hfit as [->|Hfit]; [done|]. apply andb_false_intro2.
      apply Forall_cons_1 in Hfit as [Hrow _]. unfold row_within_limits in Hrow.
      rewrite Hroll, Hsname, Hcname in Hrow. cbn [default] in Hrow.
      unfold exceeds_max_length. apply bool_decide_eq_false_2.
      cbn [roll_number student_name course_name]. unfold id in Hrow. lia. }
    rewrite Hcond in Hu1 |- *. cbn [store fst snd] in Hu1.
    set (db1 := {| students := _; absences := _ |}) in *.
    destruct (IH (n + 1) db1 Hcomplete Hfit' Hu1) as [m Hm]. exists m.
    by destruct (import_rows clock rest (n + 1) db1) as [[r2 db2] w2].
Qed.

(** The student created for a roll number the roster did not hold bears
    the trimmed name and course of the first row with that roll number. *)
Lemma import_rows_first_row rs clock n m db i row :
  result (import_rows clock rs n db) = Return m →
  rs !! i = Some row →
  (∀ j, (j < i)%nat →
        row_rolls rs !! j ≠ Some (strip (default "" (row !! "Roll Number")))) →
  strip (default "" (row !! "Roll Number")) ∉ roster_rolls (students db) →
  ∃ k s,
    students (store (import_rows clock rs n db)) !! k = Some s
    ∧ students db !! k = None
    ∧ roll_number s = strip (default "" (row !! "Roll Number"))
    ∧ student_name s = strip (default "" (row !! "Student Name"))
    ∧ course_name s = strip (default "" (row !! "Course Name")).
Proof.
  revert n db i. induction rs as [|r0 rest IH]; intros n db i Hm Hi Hfirst Hnew; [done|].
  pose proof (import_rows_extends rest clock) as Hext.
  rewrite import_rows_cons in Hm |- *.
  destruct (r0 !! "Roll Number") as [roll0|] eqn:Hroll0; [|done].
  destruct (r0 !! "Student Name") as [sname0|] eqn:Hsname0; [|done].
  destruct (r0 !! "Course Name") as [cname0|] eqn:Hcname0; [|done].
  pose proof (Student_get_or_create_step (strip roll0) (strip sname0) (strip cname0)
                (clock (Z.to_nat n)) db) as [Hx Hstep].
  cbn zeta in Hstep, Hx. rewrite Student_get_or_create_run in Hm, Hstep, Hx |- *.
  destruct i as [|i].
  - injection Hi as <-. rewrite Hroll0 in Hnew. rewrite Hroll0, Hsname0, Hcname0.
    cbn [default] in Hnew |- *. unfold id in Hnew |- *.
    apply filter_roll_empty_iff in Hnew. rewrite Hnew, qs_get_empty in Hm |- *.
    cbn zeta in Hm |- *. destruct (enforces_max_length && _); [done|].
    set (db1 := {| students := _; absences := _ |}) in *.
    specialize (Hext (n + 1) db1) as (_ & Hsub & _).
    destruct (import_rows clock rest (n + 1) db1) as [[r2 db2] w2].
    cbn [store result fst snd] in *.
    eexists (fresh_pk (students db)), _. split.
    { eapply lookup_weaken; [|exact Hsub]. subst db1. cbn [students].
      apply lookup_insert_eq. }
    split; [apply fresh_pk_unused|done].
  - cbn [lookup list_lookup] in Hi.
    assert (strip roll0 ≠ strip (default "" (row !! "Roll Number"))) as Hne.
    { intros Heq. apply (Hfirst 0%nat); [lia|].
      cbn [row_rolls fmap list_fmap lookup list_lookup]. rewrite Hroll0. cbn [default].
      by rewrite <- Heq. }
    assert (∀ j, (j < i)%nat →
              row_rolls rest !! j ≠ Some (strip (default "" (row !! "Roll Number"))))
      as Hfirst'.
    { intros j Hj. apply (Hfirst (S j)). lia. }
    destruct (qs_get _) as [r|e].
    + cbn [store result fst snd] in *.
      specialize (IH n db i).
      destruct (import_rows clock rest n db) as [[r2 db2] w2].
      cbn [store result fst snd] in *. by apply IH.
    + destruct e; try done. cbn zeta in *.
      destruct (enforces_max_length && _); [done|].
      set (db1 := {| students := _; absences := _ |}) in *.
      cbn [store result fst snd] in Hstep, Hx.
      destruct Hstep as (_ & _ & Hrolls). destruct Hx as (_ & Hsub & _).
      specialize (IH (n + 1) db1 i).
      destruct (import_rows clock rest (n + 1) db1) as [[r2 db2] w2].
      cbn [store result fst snd] in *.
      destruct IH as (k & s & Hk & Hk1 & Hfields); [done..| |].
      { rewrite Hrolls, elem_of_union, elem_of_singleton.
        intros [Heq|Hin]; [by apply Hne|by apply Hnew]. }
      exists k, s. split; [done|]. split; [|done].
      destruct (students db !! k) as [s'|] eqn:Hk0; [|done].
      by rewrite (lookup_weaken _ _ _ _ Hk0 Hsub) in Hk1.
Qed.

End import_rows_further.

Section import_students_further.
Import Instances Scenarios.
Context `{Backend, Pandas}.
Implicit Types (clock : nat → Z) (db : DB) (file : UploadedFile) (df : DataFrame).

(** What a successful import of a frame is, in terms of the loop. *)
Lemma import_students_success_inv clock db file df n :
  read_upload file = Some (Return df) →
  result (import_students clock (POST_upload file) db)
  = Return (Redirect (Named "attendance_list"), [MsgSuccessImported n]) →
  result (import_rows clock (rows df) 0 db) = Return n
  ∧ store (import_students clock (POST_upload file) db)
    = store (import_rows clock (rows df) 0 db)
  ∧ writes (import_students clock (POST_upload file) db)
    = writes (import_rows clock (rows df) 0 db).
Proof.
  intros Hread. rewrite import_students_upload, Hread by (by eapply read_upload_name).
  destruct (bool_decide _); [|done].
  destruct (import_rows clock (rows df) 0 db) as [[[m|e] db'] w]; [|done].
  by intros [= <-].
Qed.

(** The store an import leaves is the one it found or the one the loop
    left. *)
Lemma import_students_store clock request db :
  store (import_students clock request db) = db
  ∨ ∃ df, store (import_students clock request db)
          = store (import_rows clock (rows df) 0 db).
Proof.
  unfold import_students.
  destruct (if decide (method request = "POST") then _ else _) as [file|]; [|by left].
  destruct (decide (name file = "")) as [?|_]; [by left|].
  unfold try_except. destruct (read_upload file) as [[df|e]|]; [|by left..].
  unfold mbind, M_bind, lift, import_dataframe.
  destruct (bool_decide _); [|by left].
  unfold mbind, M_bind, mret, M_ret. right. exists df.
  by destruct (import_rows clock (rows df) 0 db) as [[[n|e] db'] w].
Qed.

(** X13. An upload whose name does not end in csv, xlsx or xls is turned
    away with the message on file formats; nothing is read, nothing is
    written and the store stays. *)
Theorem import_students_unsupported_format clock db file :
  name file ≠ "" →
  lower (split_dot_last (name file)) ∉ ["csv"; "xlsx"; "xls"] →
  import_students clock (POST_upload file) db
  = (Return (Redirect (Named "import_students"),
             [MsgError "Unsupported file format. Please use .xlsx, .xls, or .csv files"]),
     db, []).
Proof.
  intros Hname Hext. rewrite import_students_upload by done.
  unfold read_upload.
  destruct (decide (lower (split_dot_last (name file)) = "csv")) as [Heq|_].
  { exfalso. apply Hext. rewrite Heq. by left. }
  destruct (decide (lower (split_dot_last (name file)) ∈ ["xlsx"; "xls"])) as [Hin|_]; [|done].
  exfalso. apply Hext. by right.
Qed.

(** X14. When the reader raises, the import reports the exception in its
    message and redirects to the form; nothing is written and the store
    stays. *)
Theorem import_students_reader_error clock db file e :
  read_upload file = Some (Raise e) →
  import_students clock (POST_upload file) db
  = (Return (Redirect (Named "import_students"), [MsgErrorImporting e]), db, []).
Proof.
  intros Hread. by rewrite import_students_upload, Hread by (by eapply read_upload_name).
Qed.

(** X15. After a successful import the roster holds the roll numbers it
    held before and the trimmed roll numbers of the file, and no other. *)
Theorem import_students_rolls clock db file df n :
  read_upload file = Some (Return df) →
  result (import_students clock (POST_upload file) db)
  = Return (Redirect (Named "attendance_list"), [MsgSuccessImported n]) →
  roster_rolls (students (store (import_students clock (POST_upload file) db)))
  = roster_rolls (students db) ∪ list_to_set (row_rolls (rows df)).
Proof.
  intros Hread Hok.
  destruct (import_students_success_inv clock db file df n Hread Hok) as (Hrun & -> & _).
  by eapply import_rows_rolls.
Qed.

(** X16. Whatever the request and however the import ends, it keeps the
    roster free of duplicate roll numbers, leaves the Absence rows as they
    are and keeps every Absence row pointing to a student of the roster. *)
Theorem import_students_keeps_invariants clock request db :
  unique_rolls (students db) →
  referential db →
  unique_rolls (students (store (import_students clock request db)))
  ∧ referential (store (import_students clock request db))
  ∧ absences (store (import_students clock request db)) = absences db.
Proof.
  intros Hu Href.
  destruct (import_students_store clock request db) as [->|[df ->]]; [done|].
  pose proof (import_rows_extends (rows df) clock 0 db) as (Habs & Hsub & _).
  split; [by apply import_rows_unique|]. split; [|done].
  intros k a. rewrite Habs. intros Ha.
  eapply lookup_weaken_is_Some; [by eapply Href|done].
Qed.

(** X17. A successful import that reports [n] created students has issued
    exactly [n] writes, each the insert of a student, and the roster has
    grown by [n]. *)
Theorem import_students_writes clock db file df n :
  read_upload file = Some (Return df) →
  result (import_students clock (POST_upload file) db)
  = Return (Redirect (Named "attendance_list"), [MsgSuccessImported n]) →
  Forall is_InsertStudent (writes (import_students clock (POST_upload file) db))
  ∧ Z.of_nat (length (writes (import_students clock (POST_upload file) db))) = n
  ∧ Z.of_nat (size (students (store (import_students clock (POST_upload file) db))))
    = Z.of_nat (size (students db)) + n.
Proof.
  intros Hread Hok.
  destruct (import_students_success_inv clock db file df n Hread Hok) as (Hrun & -> & ->).
  destruct (import_rows_writes (rows df) clock 0 db) as (Hall & Hsize & Hcount).
  specialize (Hcount n Hrun). split; [done|]. lia.
Qed.

(** X18. No rollback. When the rows of an upload begin with the rows of
    another upload whose import succeeds with [n] created students, the
    import of the longer upload issues the writes of the shorter one
    first and leaves every student the shorter one leaves, under the same
    key, so at least [n] more than the roster had. This holds also when
    the longer import fails at a later row: the exception that row raises
    is reported in the message, and the students created before it stay. *)
Theorem import_students_no_rollback clock db file file1 df df1 rest n :
  read_upload file1 = Some (Return df1) →
  read_upload file = Some (Return df) →
  Forall (λ col, col ∈ columns df) required_columns →
  rows df = rows df1 ++ rest →
  result (import_students clock (POST_upload file1) db)
  = Return (Redirect (Named "attendance_list"), [MsgSuccessImported n]) →
  let part := import_students clock (POST_upload file1) db in
  let whole := import_students clock (POST_upload file) db in
  students (store part) ⊆ students (store whole)
  ∧ writes part `prefix_of` writes whole
  ∧ Z.of_nat (size (students db)) + n ≤ Z.of_nat (size (students (store whole)))
  ∧ ∀ e, result (import_rows clock rest n (store part)) = Raise e →
         result whole
         = Return (Redirect (Named "import_students"), [MsgErrorImporting e]).
Proof.
  intros Hread1 Hread Hcols Hrows Hok part whole. subst part whole.
  destruct (import_students_success_inv clock db file1 df1 n Hread1 Hok)
    as (Hrun & -> & ->).
  rewrite (import_students_upload clock file db), Hread
    by (by eapply read_upload_name).
  rewrite bool_decide_eq_true_2 by done. rewrite Hrows, import_rows_app_run.
  unfold mbind, M_bind.
  destruct (import_rows_writes (rows df1) clock 0 db) as (_ & Hsize & Hcount).
  specialize (Hcount n Hrun).
  destruct (import_rows clock (rows df1) 0 db) as [[[m|e1] db1] w1];
    cbn [result store writes fst snd] in *; [|done].
  injection Hrun as ->.
  pose proof (import_rows_extends rest clock n db1) as (_ & Hsub & _).
  destruct (import_rows clock rest n db1) as [[r2 db2] w2].
  cbn [store fst snd] in Hsub. apply map_subseteq_size in Hsub as Hle.
  destruct r2 as [m2|e2]; cbn [result store writes fst snd].
  - split; [exact Hsub|]. split; [by exists w2|]. split; [lia|]. by intros e.
  - split; [exact Hsub|]. split; [by exists w2|]. split; [lia|]. by intros e [= <-].
Qed.

(** X19. First row wins: after a successful import, the student created
    for a roll number the roster did not hold bears the trimmed name and
    course of the first row of the file with that roll number. *)
Theorem import_students_first_row_wins clock db file df n i row :
  read_upload file = Some (Return df) →
  result (import_students clock (POST_upload file) db)
  = Return (Redirect (Named "attendance_list"), [MsgSuccessImported n]) →
  rows df !! i = Some row →
  (∀ j, (j < i)%nat →
        row_rolls (rows df) !! j ≠ Some (strip (default "" (row !! "Roll Number")))) →
  strip (default "" (row !! "Roll Number")) ∉ roster_rolls (students db) →
  ∃ k s,
    students (store (import_students clock (POST_upload file) db)) !! k = Some s
    ∧ students db !! k = None
    ∧ roll_number s = strip (default "" (row !! "Roll Number"))
    ∧ student_name s = strip (default "" (row !! "Student Name"))
    ∧ course_name s = strip (default "" (row !! "Course Name")).
Proof.
  intros Hread Hok Hi Hfirst Hnew.
  destruct (import_students_success_inv clock db file df n Hread Hok) as (Hrun & -> & _).
  by eapply import_rows_first_row.
Qed.

(** X20. An import cannot fail on its rows when the upload reads as a
    frame with the three columns, every row has its three cells, the
    roster is free of duplicate roll numbers, and either the database does
    not enforce [max_length] or every trimmed cell fits its column. *)
Theorem import_students_succeeds clock db file df :
  read_upload file = Some (Return df) →
  Forall (λ col, col ∈ columns df) required_columns →
  Forall row_complete (rows df) →
  enforces_max_length = false ∨ Forall row_within_limits (rows df) →
  unique_rolls (students db) →
  ∃ n, result (import_students clock (POST_upload file) db)
       = Return (Redirect (Named "attendance_list"), [MsgSuccessImported n]).
Proof.
  intros Hread Hcols Hcomplete Hfit Hu.
  rewrite import_students_upload, Hread by (by eapply read_upload_name).
  rewrite bool_decide_eq_true_2 by done.
  destruct (import_rows_succeeds (rows df) clock 0 db Hcomplete Hfit Hu) as [n Hn].
  exists n. destruct (import_rows clock (rows df) 0 db) as [[[m|e] db'] w];
    cbn [result fst] in Hn; [by injection Hn as ->|done].
Qed.

End import_students_further.

Section import_students_witnesses.
Import Instances Scenarios.

Lemma empty_db_unique_rolls : unique_rolls (students empty_db).
Proof.
  intros roll. unfold empty_db, Student_filter_roll. cbn [students].
  rewrite map_filter_empty, map_size_empty. lia.
Qed.

Lemma empty_db_referential : referential empty_db.
Proof. intros k a Ha. unfold empty_db in Ha. cbn [absences] in Ha. done. Qed.

Lemma read_three_rows :
  @read_upload plain_pandas upload_three_rows = Some (Return frame_three_rows).
Proof. vm_compute. reflexivity. Qed.

Lemma import_three_rows :
  result (@import_students (binary_backend true) plain_pandas noon (POST_upload upload_three_rows)
            roster_AB)
  = Return (Redirect (Named "attendance_list"), [MsgSuccessImported 2]).
Proof. vm_compute. reflexivity. Qed.

Lemma import_students_unsupported_format_witness :
  "notes.pdf" ≠ ""
  ∧ (lower (split_dot_last "notes.pdf") ∉ ["csv"; "xlsx"; "xls"])
  ∧ @import_students (binary_backend true) plain_pandas noon
      (POST_upload {| name := "notes.pdf"; content := "" |}) roster_AB
    = (Return (Redirect (Named "import_students"),
               [MsgError "Unsupported file format. Please use .xlsx, .xls, or .csv files"]),
       roster_AB, []).
Proof.
  assert ("notes.pdf" ≠ "") as Hname by done.
  assert (lower (split_dot_last "notes.pdf") ∉ ["csv"; "xlsx"; "xls"]) as Hext
    by (eapply (bool_decide_unpack _); vm_compute; exact I).
  split; [exact Hname|]. split; [exact Hext|].
  exact (@import_students_unsupported_format (binary_backend true) plain_pandas noon roster_AB
           {| name := "notes.pdf"; content := "" |} Hname Hext).
Defined.

Lemma import_students_reader_error_witness :
  @read_upload plain_pandas {| name := "students.xlsx"; content := "x" |}
  = Some (Raise (LibraryError "File is not a zip file"))
  ∧ @import_students (binary_backend true) plain_pandas noon
      (POST_upload {| name := "students.xlsx"; content := "x" |}) roster_AB
    = (Return (Redirect (Named "import_students"),
               [MsgErrorImporting (LibraryError "File is not a zip file")]),
       roster_AB, []).
Proof.
  split; [reflexivity|].
  exact (@import_students_reader_error (binary_backend true) plain_pandas noon roster_AB
           {| name := "students.xlsx"; content := "x" |} _ eq_refl).
Defined.

Lemma import_students_rolls_witness :
  @read_upload plain_pandas upload_three_rows = Some (Return frame_three_rows)
  ∧ result (@import_students (binary_backend true) plain_pandas noon (POST_upload upload_three_rows)
              roster_AB)
    = Return (Redirect (Named "attendance_list"), [MsgSuccessImported 2])
  ∧ roster_rolls (students (store
      (@import_students (binary_backend true) plain_pandas noon (POST_upload upload_three_rows)
         roster_AB)))
    = roster_rolls (students roster_AB) ∪ list_to_set (row_rolls (rows frame_three_rows)).
Proof.
  split; [exact read_three_rows|]. split; [exact import_three_rows|].
  exact (@import_students_rolls (binary_backend true) plain_pandas noon roster_AB upload_three_rows
           frame_three_rows 2 read_three_rows import_three_rows).
Defined.

Lemma import_students_keeps_invariants_witness :
  unique_rolls (students empty_db)
  ∧ referential empty_db
  ∧ unique_rolls (students (store
      (@import_students (binary_backend true) plain_pandas noon (POST_upload upload_three_rows)
         empty_db))).
Proof.
  split; [exact empty_db_unique_rolls|]. split; [exact empty_db_referential|].
  exact (proj1 (@import_students_keeps_invariants (binary_backend true) plain_pandas noon
                  (POST_upload upload_three_rows) empty_db
                  empty_db_unique_rolls empty_db_referential)).
Defined.

Lemma import_students_writes_witness :
  @read_upload plain_pandas upload_three_rows = Some (Return frame_three_rows)
  ∧ result (@import_students (binary_backend true) plain_pandas noon (POST_upload upload_three_rows)
              roster_AB)
    = Return (Redirect (Named "attendance_list"), [MsgSuccessImported 2])
  ∧ Z.of_nat (length (writes
      (@import_students (binary_backend true) plain_pandas noon (POST_upload upload_three_rows)
         roster_AB))) = 2.
Proof.
  split; [exact read_three_rows|]. split; [exact import_three_rows|].
  exact (proj1 (proj2 (@import_students_writes (binary_backend true) plain_pandas noon roster_AB
                         upload_three_rows frame_three_rows 2
                         read_three_rows import_three_rows))).
Defined.

Lemma import_students_first_row_wins_witness :
  rows frame_three_rows !! 1%nat
  = Some {[ "Student Name" := "Bob"; "Roll Number" := " R2 "; "Course Name" := "Math" ]}
  ∧ ("R2" ∉ roster_rolls (students roster_AB))
  ∧ ∃ k s,
      students (store
        (@import_students (binary_backend true) plain_pandas noon (POST_upload upload_three_rows)
           roster_AB)) !! k = Some s
      ∧ students roster_AB !! k = None
      ∧ roll_number s = "R2" ∧ student_name s = "Bob" ∧ course_name s = "Math".
Proof.
  assert (rows frame_three_rows !! 1%nat
          = Some {[ "Student Name" := "Bob"; "Roll Number" := " R2 ";
                    "Course Name" := "Math" ]}) as Hrow by reflexivity.
  assert ("R2" ∉ roster_rolls (students roster_AB)) as Hnew
    by (eapply (bool_decide_unpack _); vm_compute; exact I).
  split; [exact Hrow|]. split; [exact Hnew|].
  apply (@import_students_first_row_wins (binary_backend true) plain_pandas noon roster_AB
           upload_three_rows frame_three_rows 2 1%nat _
           read_three_rows import_three_rows Hrow).
  - intros [|j] Hj; [|lia]. vm_compute. congruence.
  - exact Hnew.
Defined.

Lemma import_students_succeeds_witness :
  @read_upload plain_pandas upload_three_rows = Some (Return frame_three_rows)
  ∧ Forall (λ col, col ∈ columns frame_three_rows) required_columns
  ∧ Forall row_complete (rows frame_three_rows)
  ∧ Forall row_within_limits (rows frame_three_rows)
  ∧ unique_rolls (students empty_db)
  ∧ ∃ n, result (@import_students (binary_backend true) plain_pandas noon
                   (POST_upload upload_three_rows) empty_db)
         = Return (Redirect (Named "attendance_list"), [MsgSuccessImported n]).
Proof.
  assert (Forall (λ col, col ∈ columns frame_three_rows) required_columns) as Hcols
    by (eapply (bool_decide_unpack _); vm_compute; exact I).
  assert (Forall row_complete (rows frame_three_rows)) as Hcomplete
    by (repeat constructor; by eexists).
  assert (Forall row_within_limits (rows frame_three_rows)) as Hfit
    by (repeat constructor; vm_compute; lia).
  split; [exact read_three_rows|]. split; [exact Hcols|]. split; [exact Hcomplete|].
  split; [exact Hfit|]. split; [exact empty_db_unique_rolls|].
  exact (@import_students_succeeds (binary_backend true) plain_pandas noon empty_db upload_three_rows
           frame_three_rows read_three_rows Hcols Hcomplete (or_intror Hfit)
           empty_db_unique_rolls).
Defined.

Lemma import_students_no_rollback_witness :
  @read_upload plain_pandas upload_first_row = Some (Return frame_first_row)
  ∧ @read_upload plain_pandas upload_long_roll = Some (Return frame_long_roll)
  ∧ result (@import_students (binary_backend true) plain_pandas noon
              (POST_upload upload_first_row) roster_AB)
    = Return (Redirect (Named "attendance_list"), [MsgSuccessImported 1])
  ∧ result (@import_students (binary_backend true) plain_pandas noon
              (POST_upload upload_long_roll) roster_AB)
    = Return (Redirect (Named "import_students"), [MsgErrorImporting DataError])
  ∧ students (store (@import_students (binary_backend true) plain_pandas noon
                       (POST_upload upload_first_row) roster_AB))
    ⊆ students (store (@import_students (binary_backend true) plain_pandas noon
                         (POST_upload upload_long_roll) roster_AB))
  ∧ Z.of_nat (size (students roster_AB)) + 1
    ≤ Z.of_nat (size (students (store
        (@import_students (binary_backend true) plain_pandas noon
           (POST_upload upload_long_roll) roster_AB)))).
Proof.
  assert (@read_upload plain_pandas upload_first_row = Some (Return frame_first_row))
    as Hread1 by (vm_compute; reflexivity).
  assert (@read_upload plain_pandas upload_long_roll = Some (Return frame_long_roll))
    as Hread by (vm_compute; reflexivity).
  assert (Forall (λ col, col ∈ columns frame_long_roll) required_columns) as Hcols
    by (eapply (bool_decide_unpack _); vm_compute; exact I).
  assert (result (@import_students (binary_backend true) plain_pandas noon
                    (POST_upload upload_first_row) roster_AB)
          = Return (Redirect (Named "attendance_list"), [MsgSuccessImported 1])) as Hok
    by (vm_compute; reflexivity).
  pose proof (@import_students_no_rollback (binary_backend true) plain_pandas noon
                roster_AB upload_long_roll upload_first_row frame_long_roll
                frame_first_row _ 1 Hread1 Hread Hcols eq_refl Hok)
    as (Hsub & _ & Hsize & Hfail).
  split; [exact Hread1|]. split; [exact Hread|]. split; [exact Hok|].
  split; [apply (Hfail DataError); vm_compute; reflexivity|].
  split; [exact Hsub|exact Hsize].
Defined.

End import_students_witnesses.

(** ** The views together, and urls.py *)

Section views_together.
Import Instances Scenarios.
Context `{Backend, Pandas, PyFloat, Datetime, PyStr}.
Implicit Types (clock : nat → Z) (db : DB) (request : HttpRequest).
Implicit Types (student_id current_index index : string).

(** X21. The two views that write do so on a POST only: any other request
    to [import_students] or [mark_attendance] leaves the store as it is,
    issues no write, and is answered with the form, respectively with the
    redirect to the walker. *)
Theorem get_requests_never_write clock request db :
  method request ≠ "POST" →
  import_students clock request db
  = (Return (Render "attendance/import_students.html" (), []), db, [])
  ∧ mark_attendance clock request db
    = (Return (Redirect (Named "take_attendance")), db, []).
Proof.
  intros Hget. split.
  - unfold import_students. by destruct (decide (method request = "POST")).
  - unfold mark_attendance. by destruct (decide (method request = "POST")).
Qed.

(** X22. Marking the last student of the roster ends the walk: when the
    position marked is the last one or beyond, the index the call
    redirects to sends the walker to the completion page. The form
    carries the position as a text that reads as [pos]; the redirect
    carries the next index as a text that reads as [pos + 1]. *)
Theorem mark_last_student_completes clock clock' db student_id current_index
    decision pos index resp :
  int current_index = Return pos →
  int index = Return (pos + 1) →
  Z.of_nat (size (students db)) ≤ pos + 1 →
  result (mark_attendance clock (POST_mark student_id current_index decision) db)
  = Return resp →
  resp = Redirect (TakeAttendanceIndex (pos + 1))
  ∧ result (take_attendance clock' (GET_request (Some index) None)
              (store (mark_attendance clock
                        (POST_mark student_id current_index decision) db)))
    = Return (Redirect (Named "attendance_complete")).
Proof.
  intros Hpos Hindex Hlast Hres. split.
  - revert Hres. rewrite mark_attendance_run.
    cbn [POST_mark method POST_current_index int_get_0].
    destruct (decide ("POST" = "POST")) as [_|?]; [|done]. rewrite Hpos.
    destruct (AutoField_get_prep_value _) as [pk|e]; [|done].
    destruct (pk ≫= _) as [st|]; [|done]. cbn zeta.
    destruct (decide (_ = Some "absent")) as [_|_]; [|by intros [= <-]].
    destruct (qs_get _) as [r|e]; [by intros [= <-]|].
    destruct e; try done. by intros [= <-].
  - rewrite (take_attendance_run clock' _ index (pos + 1) Hindex),
      mark_attendance_students.
    by destruct (decide (Z.of_nat (size (students db)) ≤ pos + 1)).
Qed.

(** X26. The walker asked with an [index] that does not read as a number
    fails with the [ValueError] of [int]; the store stays and nothing is
    written. *)
Theorem take_attendance_not_a_number clock request db text msg :
  GET_index request = Some text →
  int_str text = inr msg →
  take_attendance clock request db = (Raise (ValueError msg), db, []).
Proof.
  intros Htext Hbad. unfold take_attendance, query, lift. unfold mbind, M_bind.
  rewrite Htext. cbn [int_get_0]. unfold int. by rewrite Hbad.
Qed.

(** X23. Every named redirect a view can answer with goes to a name that
    [urlpatterns] routes: [reverse] finds it. *)
Theorem redirects_are_routed clock request db target :
  (∃ messages,
     result (import_students clock request db) = Return (Redirect (Named target), messages))
  ∨ result (take_attendance clock request db) = Return (Redirect (Named target))
  ∨ result (mark_attendance clock request db) = Return (Redirect (Named target)) →
  is_Some (reverse target).
Proof.
  intros [[messages Hi]|[Ht|Hm]].
  - revert Hi. unfold import_students.
    destruct (if decide (method request = "POST") then _ else _) as [file|]; [|done].
    destruct (decide (name file = "")) as [?|_]; [done|].
    unfold try_except. destruct (read_upload file) as [[df|e]|].
    + unfold mbind, M_bind, lift, import_dataframe.
      destruct (bool_decide _); [|intros [= <- _]; by eexists].
      unfold mbind, M_bind, mret, M_ret.
      destruct (import_rows clock (rows df) 0 db) as [[[n|e] db'] w];
        intros [= <- _]; by eexists.
    + intros [= <- _]. by eexists.
    + intros [= <- _]. by eexists.
  - revert Ht. unfold take_attendance, query, lift. unfold mbind, M_bind, mret, M_ret.
    destruct (int_get_0 _) as [current_index|e]; [|done].
    destruct (decide _); [intros [= <-]; by eexists|].
    destruct (qs_getitem _ _) as [cur|e]; [|done].
    by destruct (truediv _ _).
  - revert Hm. rewrite mark_attendance_run.
    destruct (decide (method request = "POST")) as [_|_]; [|intros [= <-]; by eexists].
    destruct (int_get_0 _) as [pos|e]; [|done].
    destruct (AutoField_get_prep_value _) as [pk|e]; [|done].
    destruct (pk ≫= _) as [st|]; [|done]. cbn zeta.
    destruct (decide (_ = Some "absent")) as [_|_]; [|done].
    destruct (qs_get _) as [r|e]; [done|]. by destruct e.
Qed.

End views_together.

Lemma get_requests_never_write_witness :
  method (Instances.GET_request None None) ≠ "POST"
  ∧ @mark_attendance Instances.ascii_str Scenarios.noon
      (Instances.GET_request None None) Scenarios.A_absent
    = (Return (Redirect (Named "take_attendance")), Scenarios.A_absent, []).
Proof.
  assert (method (Instances.GET_request None None) ≠ "POST") as Hget by done.
  split; [exact Hget|].
  exact (proj2 (@get_requests_never_write (Instances.binary_backend true)
                  Instances.plain_pandas Instances.ascii_str Scenarios.noon
                  (Instances.GET_request None None) Scenarios.A_absent Hget)).
Defined.

Lemma mark_last_student_completes_witness :
  @int Instances.ascii_str "1" = Return 1
  ∧ @int Instances.ascii_str "2" = Return (1 + 1)
  ∧ Z.of_nat (size (students Scenarios.roster_AB)) ≤ 1 + 1
  ∧ result (@mark_attendance Instances.ascii_str Scenarios.noon
              (Instances.POST_mark "2" "1" "absent") Scenarios.roster_AB)
    = Return (Redirect (TakeAttendanceIndex 2))
  ∧ result (@take_attendance (Instances.binary_backend true) Instances.binary64
              Instances.ascii_str Scenarios.noon
              (Instances.GET_request (Some "2") None)
              (store (@mark_attendance Instances.ascii_str Scenarios.noon
                        (Instances.POST_mark "2" "1" "absent") Scenarios.roster_AB)))
    = Return (Redirect (Named "attendance_complete")).
Proof.
  assert (Z.of_nat (size (students Scenarios.roster_AB)) ≤ 1 + 1) as Hlast
    by (vm_compute; congruence).
  assert (result (@mark_attendance Instances.ascii_str Scenarios.noon
                    (Instances.POST_mark "2" "1" "absent") Scenarios.roster_AB)
          = Return (Redirect (TakeAttendanceIndex 2))) as Hres by reflexivity.
  split; [reflexivity|]. split; [reflexivity|].
  split; [exact Hlast|]. split; [exact Hres|].
  exact (proj2 (@mark_last_student_completes (Instances.binary_backend true)
                  Instances.binary64 Instances.ascii_str Scenarios.noon Scenarios.noon
                  Scenarios.roster_AB "2" "1" "absent" 1 "2" _
                  eq_refl eq_refl Hlast Hres)).
Defined.

Lemma take_attendance_not_a_number_witness :
  GET_index (Instances.GET_request (Some "") None) = Some ""
  ∧ @int_str Instances.ascii_str ""
    = inr "invalid literal for int() with base 10: ''"
  ∧ @take_attendance (Instances.binary_backend true) Instances.binary64
      Instances.ascii_str Scenarios.noon (Instances.GET_request (Some "") None)
      Scenarios.A_absent
    = (Raise (ValueError "invalid literal for int() with base 10: ''"),
       Scenarios.A_absent, []).
Proof.
  split; [reflexivity|]. split; [reflexivity|].
  exact (@take_attendance_not_a_number (Instances.binary_backend true)
           Instances.binary64 Instances.ascii_str Scenarios.noon
           (Instances.GET_request (Some "") None) Scenarios.A_absent "" _
           eq_refl eq_refl).
Defined.

Lemma redirects_are_routed_witness :
  result (@take_attendance (Instances.binary_backend true) Instances.binary64
            Instances.ascii_str Scenarios.noon
            (Instances.GET_request (Some "2") None) Scenarios.roster_AB)
  = Return (Redirect (Named "attendance_complete"))
  ∧ is_Some (reverse "attendance_complete").
Proof.
  assert (result (@take_attendance (Instances.binary_backend true) Instances.binary64
                    Instances.ascii_str Scenarios.noon
                    (Instances.GET_request (Some "2") None) Scenarios.roster_AB)
          = Return (Redirect (Named "attendance_complete"))) as Hres by reflexivity.
  split; [exact Hres|].
  exact (@redirects_are_routed (Instances.binary_backend true) Instances.plain_pandas
           Instances.binary64 Instances.ascii_str Scenarios.noon
           (Instances.GET_request (Some "2") None)
           Scenarios.roster_AB "attendance_complete" (or_intror (or_introl Hres))).
Defined.

(** X24. [urlpatterns] names each route once: the route [reverse] gives
    for a name is resolved back to that name, and the name [resolve] gives
    for a route is reversed back to that route. *)
Theorem reverse_resolve_round_trip (name route : string) :
  reverse name = Some route ↔ resolve route = Some name.
Proof.
  unfold reverse, resolve, urlpatterns. cbn [list_find fmap option_fmap option_map fst snd].
  split; intros Hr.
  - repeat (destruct (decide (_ = name)) as [<-|?];
            [cbn in Hr; injection Hr as <-; reflexivity|]).
    done.
  - repeat (destruct (decide (_ = route)) as [<-|?];
            [cbn in Hr; injection Hr as <-; reflexivity|]).
    done.
Qed.
